(** * django-messages: the form field of [fields.py] and the views of
    [views.py], embedded as Rocq functions, with the properties of the
    specification proved (or refuted) about them. *)

From Stdlib Require Import ZArith String Ascii DecimalString DecimalZ DecimalPos.
From stdpp Require Import gmap strings list.

Local Open Scope string_scope.
Local Open Scope Z_scope.

(** ** Python built-ins used by the two modules *)

Module Py.

(** Text is unicode text whose characters are code points below 256: a
    [string] lists them, one [ascii] each. *)

(** Exceptions that can leave the modelled code. [ValueError] stands for
    the class with its subclasses; [OverflowError] is what the database
    driver raises for an integer that does not fit the key column. *)
Inductive exn : Type :=
  | ValidationError (message : string)
  | AttributeError (name : string)
  | ValueError (literal : string)
  | OverflowError
  | KeyError (key : string)
  | Http404.

(** The outcome of a call: a returned value or a raised exception. *)
Inductive result (A : Type) : Type :=
  | Return (a : A)
  | Raise (e : exn).
Arguments Return {A} a.
Arguments Raise {A} e.

Definition bind {A B : Type} (m : result A) (k : A → result B) : result B :=
  match m with
  | Return a => k a
  | Raise e => Raise e
  end.

#[global] Instance result_ret : MRet result := @Return.
#[global] Instance result_bind : MBind result := λ A B k m, bind m k.

(** [for x in l: ...] collecting results, stopping at the first exception. *)
Fixpoint for_each {A B : Type} (f : A → result B) (l : list A) : result (list B) :=
  match l with
  | [] => Return []
  | x :: l' => y ← f x; ys ← for_each f l'; Return (y :: ys)
  end.

(** [unicode.isspace] on the code points below 256: TAB, LF, VT, FF, CR,
    the four separators FS..US, the space, NEL (133) and the no-break
    space (160). *)
Definition isspace (c : ascii) : bool :=
  let n := nat_of_ascii c in
  ((9 <=? n)%nat && (n <=? 13)%nat) || ((28 <=? n)%nat && (n <=? 32)%nat)
  || (n =? 133)%nat || (n =? 160)%nat.

Fixpoint lstrip (s : string) : string :=
  match s with
  | EmptyString => EmptyString
  | String c s' => if isspace c then lstrip s' else s
  end.

Fixpoint rstrip (s : string) : string :=
  match s with
  | EmptyString => EmptyString
  | String c s' =>
      match rstrip s' with
      | EmptyString => if isspace c then EmptyString else String c EmptyString
      | r => String c r
      end
  end.

(** [s.strip()] *)
Definition strip (s : string) : string := rstrip (lstrip s).

(** [s.split(sep)] for a one-character separator: never the empty list. *)
Fixpoint split (sep : ascii) (s : string) : list string :=
  match s with
  | EmptyString => [EmptyString]
  | String c s' =>
      if Ascii.eqb c sep then EmptyString :: split sep s'
      else match split sep s' with
           | [] => [String c EmptyString]
           | w :: ws => String c w :: ws
           end
  end.

(** [sep.join(l)] *)
Fixpoint join (sep : string) (l : list string) : string :=
  match l with
  | [] => EmptyString
  | [x] => x
  | x :: l' => x ++ sep ++ join sep l'
  end.

(** [str(n)] for an integer: decimal digits, ["-"] in front when negative. *)
Definition str (z : Z) : string := NilZero.string_of_int (Z.to_int z).

(** [int(s)] on text: surrounding white space is dropped, then an optional
    sign and at least one decimal digit; anything else is a [ValueError]. *)
Definition int_literal (s : string) : option Z :=
  match strip s with
  | String "+" d => (λ u, Z.of_int (Decimal.Pos u)) <$> NilZero.uint_of_string d
  | t => Z.of_int <$> NilZero.int_of_string t
  end.

Definition int (s : string) : result Z :=
  match int_literal s with
  | Some z => Return z
  | None => Raise (ValueError s)
  end.

(** Whether every character of [s] satisfies [P]. *)
Fixpoint all_chars (P : ascii → bool) (s : string) : bool :=
  match s with
  | EmptyString => true
  | String c s' => P c && all_chars P s'
  end.

(** The characters [str] writes: the ten digits and the minus sign. *)
Definition is_int_char (c : ascii) : bool :=
  let n := nat_of_ascii c in
  ((48 <=? n)%nat && (n <=? 57)%nat) || (n =? 45)%nat.

(** [a ^ b] on sets. *)
Definition symmetric_difference `{Countable A} (a b : gset A) : gset A :=
  (a ∖ b) ∪ (b ∖ a).

(** A Python set of text, as the way it was built: [set(l)] from a
    sequence, or [a ^ b] from two sets. *)
Inductive pyset : Type :=
  | set_of (l : list string)
  | set_xor (a b : pyset).

(** What is in the set. *)
Fixpoint members (s : pyset) : gset string :=
  match s with
  | set_of l => list_to_set l
  | set_xor a b => symmetric_difference (members a) (members b)
  end.

(** The order in which a set hands out its elements ([for x in s],
    [list(s)]) follows the hashes of the elements and the history of the
    set; the code cannot rely on it. Here it is any function of how the set
    was built that lists the members, each once. *)
Class SetIteration : Type := {
  iterate : pyset → list string;
  iterate_members : ∀ s, iterate s ≡ₚ elements (members s);
}.

(** The range of the integer key column of the database: 64 bits, signed. *)
Definition fits (key : Z) : bool := (- 2 ^ 63 <=? key) && (key <? 2 ^ 63).

(** [l.remove(x)]: drops the first element that [==] makes equal to [x]. *)
Fixpoint remove_first {A : Type} (eq : A → A → bool) (x : A) (l : list A) : list A :=
  match l with
  | [] => []
  | y :: l' => if eq y x then l' else y :: remove_first eq x l'
  end.

(** One order among the possible ones, for running examples. *)
#[global] Instance sorted_iteration : SetIteration :=
  {| iterate s := elements (members s); iterate_members s := reflexivity _ |}.

End Py.

Export Py.
Infix "^^" := symmetric_difference (at level 40, left associativity).

(** ** The objects the two modules pass around *)

(** A row of [django.contrib.auth.models.User]: the primary key, the login
    name, and the signature of the attached profile ([u.profile.signature]). *)
Record User : Type := mkUser {
  pk : Z;
  username : string;
  signature : string;
}.

#[global] Instance User_eq_dec : EqDecision User.
Proof. solve_decision. Defined.

(** [u == v] on model instances: same primary key. *)
Definition User_eq (u v : User) : bool := bool_decide (pk u = pk v).

(** The values that reach the field and the widget. *)
Inductive pyobj : Type :=
  | PyNone
  | PyBool (b : bool)
  | PyStr (s : string)
  | PyList (l : list User)
  | PyTuple (l : list User).

#[global] Instance pyobj_eq_dec : EqDecision pyobj.
Proof. solve_decision. Defined.

(** [bool(value)] *)
Definition truthy (value : pyobj) : bool :=
  match value with
  | PyNone => false
  | PyBool b => b
  | PyStr s => negb (String.eqb s "")
  | PyList l | PyTuple l => negb (bool_decide (l = []))
  end.

(** [isinstance(value, (list, tuple))] *)
Definition is_list_or_tuple (value : pyobj) : bool :=
  match value with
  | PyList _ | PyTuple _ => true
  | _ => false
  end.

(** [x is False] *)
Definition is_False (x : pyobj) : bool :=
  match x with
  | PyBool false => true
  | _ => false
  end.

(** What an attribute of a [User] evaluates to. *)
Inductive attr : Type :=
  | AInt (z : Z)
  | AText (s : string).

(** [str(x)] on such a value. *)
Definition attr_str (x : attr) : string :=
  match x with
  | AInt z => str z
  | AText s => s
  end.

(** [u.<name>]: the attributes a [User] has; any other name raises. *)
Definition User_getattr (u : User) (name : string) : result attr :=
  if String.eqb name "pk" then Return (AInt (pk u))
  else if String.eqb name "id" then Return (AInt (pk u))
  else if String.eqb name "username" then Return (AText (username u))
  else Raise (AttributeError name).

(** [User.objects.filter(pk__in=ids)], evaluated: every element of [ids] is
    coerced with [int] (the primary key is an integer column); the driver
    refuses an integer outside the range of the column (the key of a stored
    row is never one); and the rows whose key is among the integers come
    back in table order. *)
Definition User_objects_filter_pk__in (User_objects : list User) (ids : list string)
  : result (list User) :=
  keys ← for_each int ids;
  if forallb (λ key, fits key || bool_decide (key ∈ pk <$> User_objects)) keys
  then Return (filter (λ u, pk u ∈ keys) User_objects)
  else Raise OverflowError.

(** ** fields.py *)

Module fields.

(** The call [super(CommaSeparatedUserInput, self).render(name, value, attrs)]:
    the inherited hidden input, rendered by the framework from these three
    arguments. *)
Inductive html : Type :=
  | HiddenInput_render (name : string) (value : pyobj) (attrs : option (list (string * string))).

(** [CommaSeparatedUserInput.render] *)
Definition render (name : string) (value : pyobj) (attrs : option (list (string * string))) : html :=
  let value :=
    match value with
    | PyNone => PyStr ""
    | PyList l | PyTuple l => PyStr (join ", " ((λ user, str (pk user)) <$> l))
    | _ => value
    end in
  HiddenInput_render name value attrs.

(** A [CommaSeparatedUserField]: [required] is the keyword the inherited
    constructor receives, [_recipient_filter] the one [__init__] pops. *)
Record CommaSeparatedUserField : Type := mkField {
  required : bool;
  _recipient_filter : option (User → pyobj);
}.

(** [django.core.validators.EMPTY_VALUES = (None, '', [], (), {})] *)
Definition EMPTY_VALUES (value : pyobj) : bool :=
  match value with
  | PyNone | PyStr EmptyString | PyList [] | PyTuple [] => true
  | _ => false
  end.

(** [forms.Field.clean], the inherited method called first: with no
    validators of its own it only enforces [required]. *)
Definition Field_clean (self : CommaSeparatedUserField) (value : pyobj) : result pyobj :=
  if EMPTY_VALUES value && required self
  then Raise (ValidationError "This field is required.")
  else Return value.

(** [value.split(',')]: only text has the method. *)
Definition value_split (value : pyobj) : result (list string) :=
  match value with
  | PyStr s => Return (split "," s)
  | _ => Raise (AttributeError "split")
  end.

(** What is in [ids_set = set([uid.strip() for uid in ids if uid.strip()])],
    given what is in [ids]. *)
Definition strip_ids (ids : gset string) : gset string :=
  list_to_set (strip <$> filter (λ uid, strip uid ≠ "") (elements ids)).

(** What is in [set([str(user.pk) for user in users])]. *)
Definition pk_strings (users : list User) : gset string :=
  list_to_set ((λ user, str (pk user)) <$> users).

(** The loop [for r in users: ...] of [clean]. The iterator is an index [i]
    into the list that the body itself shortens; [fuel] bounds the number of
    iterations and is the length of the list at entry. *)
Fixpoint filter_loop (fuel : nat) (recipient_filter : User → pyobj) (i : nat)
    (users : list User) (invalid_users : list attr) : result (list User * list attr) :=
  match fuel with
  | O => Return (users, invalid_users)
  | S fuel =>
      match users !! i with
      | None => Return (users, invalid_users)
      | Some r =>
          if is_False (recipient_filter r) then
            let users := remove_first User_eq r users in
            gk ← User_getattr r "gk";
            filter_loop fuel recipient_filter (S i) users (invalid_users ++ [gk])%list
          else filter_loop fuel recipient_filter (S i) users invalid_users
      end
  end.

(** The text of the error raised for incorrect IDs. *)
Definition incorrect_message (incorrect : list string) : string :=
  "The following user IDs are incorrect: " ++ join ", " incorrect.

(** [CommaSeparatedUserField.clean]. The three sets are iterated where the
    code iterates them: [ids] by the comprehension, [ids_set] by the
    lookup, [unknown_ids] by [list(unknown_ids)]. *)
Definition clean `{SetIteration} (self : CommaSeparatedUserField) (User_objects : list User)
    (value : pyobj) : result pyobj :=
  _ ← Field_clean self value;
  if negb (truthy value) then Return (PyStr "")
  else if is_list_or_tuple value then Return value
  else
    parts ← value_split value;
    let ids := set_of parts in
    let ids_set := set_of (strip <$> filter (λ uid, strip uid ≠ "") (iterate ids)) in
    users ← User_objects_filter_pk__in User_objects (iterate ids_set);
    let unknown_ids := set_xor ids_set (set_of ((λ user, str (pk user)) <$> users)) in
    '(users, invalid_users) ←
      match _recipient_filter self with
      | Some recipient_filter => filter_loop (length users) recipient_filter 0 users []
      | None => Return (users, [])
      end;
    if negb (bool_decide (members unknown_ids = ∅))
       || negb (bool_decide (invalid_users = []))
    then
      let incorrect := attr_str <$> ((AText <$> iterate unknown_ids) ++ invalid_users)%list in
      Raise (ValidationError (incorrect_message incorrect))
    else Return (PyList users).

End fields.

(** ** views.py *)

Module views.
Import fields.

Definition datetime : Type := Z.

(** Modelled from the spec: the [Message] record of [django_messages.models],
    which is not among the sources; the spec gives it a sender, a recipient,
    a body, timestamps and the two soft-delete markers, and the views read
    [subject] and the key [id]. The recipient column is nullable. *)
Record Message : Type := mkMessage {
  id : Z;
  subject : string;
  body : string;
  sender : User;
  recipient : option User;
  sent_at : option datetime;
  read_at : option datetime;
  replied_at : option datetime;
  sender_deleted_at : option datetime;
  recipient_deleted_at : option datetime;
}.

#[global] Instance Message_eq_dec : EqDecision Message.
Proof. solve_decision. Defined.

(** [request.user]: a logged-in [User] or the anonymous user. *)
Inductive request_user : Type :=
  | Authenticated (u : User)
  | AnonymousUser.

Definition is_authenticated (user : request_user) : bool :=
  match user with
  | Authenticated _ => true
  | AnonymousUser => false
  end.

(** [message.sender == user] *)
Definition sender_is (message : Message) (user : request_user) : bool :=
  match user with
  | Authenticated u => User_eq (sender message) u
  | AnonymousUser => false
  end.

(** [message.recipient == user]; a missing recipient equals nobody. *)
Definition recipient_is (message : Message) (user : request_user) : bool :=
  match recipient message, user with
  | Some r, Authenticated u => User_eq r u
  | _, _ => false
  end.

Record HttpRequest : Type := mkRequest {
  user : request_user;
  method : string;
  GET : gmap string string;
  POST : gmap string string;
}.

(** A form instance as the views see it: the bound data, the [initial]
    mapping, the filter handed to the recipient field, and the two
    [initial] attributes the views assign. *)
Record Form : Type := mkForm {
  data : option (gmap string string);
  initial : list (string * pyobj);
  recipient_filter_of : option (User → pyobj);
  recipient_initial : option (list User);
  to_initial : option string;
}.

(** What a template is rendered with. *)
Inductive context : Type :=
  | ctx_message_list (message_list : list Message)
  | ctx_form (form : Form)
  | ctx_message (message : Message).

Inductive HttpResponse : Type :=
  | HttpResponseRedirect (url : string)
  | render_to_response (template_name : string) (ctx : context) (request : HttpRequest).

(** Everything a request can read or change outside the module: the two
    tables, the one-time notices of [django.contrib.messages], and the
    notifications sent through the optional [notification] application. *)
Record World : Type := mkWorld {
  Message_objects : gmap Z Message;
  User_objects : list User;
  flash : list string;
  notices : list (request_user * string * Message);
}.

(** The module-level name bound at import: whether [notification] is the
    application's [models] module or [None]. *)
Record Globals : Type := mkGlobals {
  notification : bool;
}.

(** What the project around the views provides: the URLconf behind
    [reverse], the target of the login redirect, and the three queries of
    the manager [Message.objects] (defined in [django_messages.models],
    which is not among the sources, and so left open here). *)
Record Site : Type := mkSite {
  reverse : string → string;
  login_redirect : HttpRequest → string;
  inbox_for : request_user → gmap Z Message → list Message;
  outbox_for : request_user → gmap Z Message → list Message;
  trash_for : request_user → gmap Z Message → list Message;
}.

(** The [form_class] argument of [compose] and [reply]: whether the
    recipient field is required, [is_valid] and [save]. The default,
    [ComposeForm] of [django_messages.forms], is not among the sources. *)
Record FormClass : Type := mkFormClass {
  recipient_required : bool;
  is_valid : Form → World → result bool;
  save : Form → request_user → option Message → World → World;
}.

(** *** Code that runs against the world and may raise *)

Definition M (A : Type) : Type := World → result A * World.

Definition ret {A : Type} (a : A) : M A := λ w, (Return a, w).

Definition raise {A : Type} (e : exn) : M A := λ w, (Raise e, w).

Definition bindM {A B : Type} (m : M A) (k : A → M B) : M B :=
  λ w, match m w with
       | (Return a, w') => k a w'
       | (Raise e, w') => (Raise e, w')
       end.

#[global] Instance M_ret : MRet M := @ret.
#[global] Instance M_bind : MBind M := λ A B k m, bindM m k.

(** A computation that only reads the world. *)
Definition lift {A : Type} (f : World → result A) : M A := λ w, (f w, w).

(** [try: body  except forms.ValidationError: handler] *)
Definition except_ValidationError {A : Type} (body : M A) (handler : M A) : M A :=
  λ w, match body w with
       | (Raise (ValidationError _), w') => handler w'
       | r => r
       end.

(** [get_object_or_404(Message, id=message_id)]: the row, or [Http404]
    when there is none; an id outside the range of the key column, which no
    row has, is refused by the driver before that. *)
Definition get_object_or_404 (message_id : Z) : M Message :=
  λ w, match Message_objects w !! message_id with
       | Some message => (Return message, w)
       | None => (Raise (if fits message_id then Http404 else OverflowError), w)
       end.

(** [message.save()]: the row with the message's key becomes the message. *)
Definition Message_save (message : Message) : M unit :=
  λ w, (Return (), mkWorld (<[id message := message]> (Message_objects w))
                           (User_objects w) (flash w) (notices w)).

(** [messages.info(request, text)] *)
Definition messages_info (request : HttpRequest) (text : string) : M unit :=
  λ w, (Return (), mkWorld (Message_objects w) (User_objects w)
                           (flash w ++ [text])%list (notices w)).

(** [notification.send([user], label, {'message': message})] *)
Definition notification_send (user : request_user) (label : string) (message : Message) : M unit :=
  λ w, (Return (), mkWorld (Message_objects w) (User_objects w) (flash w)
                           (notices w ++ [(user, label, message)])%list).

(** [d[key]] on a [QueryDict] *)
Definition getitem (d : gmap string string) (key : string) : result string :=
  match d !! key with
  | Some v => Return v
  | None => Raise (KeyError key)
  end.

(** The decorator [login_required]: anonymous requests are sent to the
    login page and the view is not called. *)
Definition login_required (site : Site) (view : HttpRequest → M HttpResponse)
    (request : HttpRequest) : M HttpResponse :=
  if is_authenticated (user request) then view request
  else ret (HttpResponseRedirect (login_redirect site request)).

(** *** The eight views, as written (before decoration) *)

Section Views.
Context `{SetIteration} (site : Site) (globals : Globals) (now : datetime).

Definition inbox_body (template_name : string) (request : HttpRequest) : M HttpResponse :=
  message_list ← lift (λ w, Return (inbox_for site (user request) (Message_objects w)));
  ret (render_to_response template_name (ctx_message_list message_list) request).

Definition outbox_body (template_name : string) (request : HttpRequest) : M HttpResponse :=
  message_list ← lift (λ w, Return (outbox_for site (user request) (Message_objects w)));
  ret (render_to_response template_name (ctx_message_list message_list) request).

Definition trash_body (template_name : string) (request : HttpRequest) : M HttpResponse :=
  message_list ← lift (λ w, Return (trash_for site (user request) (Message_objects w)));
  ret (render_to_response template_name (ctx_message_list message_list) request).

(** [success_url] after the two overrides of [compose], [delete], [undelete]. *)
Definition next_url (request : HttpRequest) (success_url : option string) : string :=
  let success_url := default (reverse site "messages_inbox") success_url in
  match GET request !! "next" with
  | Some next => next
  | None => success_url
  end.

(** ['<br>'.join([u.profile.signature for u in recipients])] *)
Definition signatures (recipients : list User) : string :=
  join "<br>" (signature <$> recipients).

Definition set_to_initial (form : Form) (text : string) : Form :=
  mkForm (data form) (initial form) (recipient_filter_of form) (recipient_initial form) (Some text).

Definition set_recipient_initial (form : Form) (recipients : list User) : Form :=
  mkForm (data form) (initial form) (recipient_filter_of form) (Some recipients) (to_initial form).

(** The list a value stands for once [if not recipients: recipients = []]
    has run. *)
Definition recipients_or_empty (recipients : pyobj) : list User :=
  match recipients with
  | PyList l | PyTuple l => l
  | _ => []
  end.

(** The common tail of [compose]: fill in the signatures and render. *)
Definition compose_render (template_name : string) (request : HttpRequest)
    (form : Form) (recipients : list User) : M HttpResponse :=
  let form := set_to_initial form (signatures recipients) in
  ret (render_to_response template_name (ctx_form form) request).

Definition compose_body (recipient : option string) (form_class : FormClass)
    (template_name : string) (success_url : option string)
    (recipient_filter : option (User → pyobj)) (request : HttpRequest) : M HttpResponse :=
  if String.eqb (method request) "POST" then
    let form := mkForm (Some (POST request)) [] recipient_filter None None in
    valid ← lift (is_valid form_class form);
    if valid : bool then
      (λ w, (Return (), save form_class form (user request) None w));;
      messages_info request "Message successfully sent.";;
      ret (HttpResponseRedirect (next_url request success_url))
    else
      recipients ←
        except_ValidationError
          (lift (λ w, value ← getitem (POST request) "recipient";
                      clean (mkField (recipient_required form_class) recipient_filter)
                            (User_objects w) (PyStr value)))
          (ret (PyList []));
      compose_render template_name request form (recipients_or_empty recipients)
  else
    let form := mkForm None [] None None None in
    '(form, recipients) ←
      match recipient with
      | Some recipient =>
          recipients ← lift (λ w, User_objects_filter_pk__in (User_objects w)
                                    (strip <$> split "+" recipient));
          ret (set_recipient_initial form recipients, recipients)
      | None => ret (form, [])
      end;
    if bool_decide (recipients = []) then raise Http404
    else compose_render template_name request form recipients.

Definition reply_body (message_id : Z) (form_class : FormClass)
    (template_name : string) (success_url : option string)
    (recipient_filter : option (User → pyobj)) (request : HttpRequest) : M HttpResponse :=
  parent ← get_object_or_404 message_id;
  if negb (sender_is parent (user request)) && negb (recipient_is parent (user request))
  then raise Http404
  else
    let finish (form : Form) : M HttpResponse :=
      let form := set_to_initial form (signature (sender parent)) in
      ret (render_to_response template_name (ctx_form form) request) in
    if String.eqb (method request) "POST" then
      let form := mkForm (Some (POST request)) [] recipient_filter None None in
      valid ← lift (is_valid form_class form);
      if valid : bool then
        (λ w, (Return (), save form_class form (user request) (Some parent) w));;
        messages_info request "Message successfully sent.";;
        ret (HttpResponseRedirect (default (reverse site "messages_inbox") success_url))
      else finish form
    else
      finish (mkForm None [("subject", PyStr ("Re: " ++ subject parent));
                           ("recipient", PyList [sender parent])] None None None).

Definition set_sender_deleted_at (message : Message) (t : option datetime) : Message :=
  mkMessage (id message) (subject message) (body message) (sender message)
            (recipient message) (sent_at message) (read_at message) (replied_at message)
            t (recipient_deleted_at message).

Definition set_recipient_deleted_at (message : Message) (t : option datetime) : Message :=
  mkMessage (id message) (subject message) (body message) (sender message)
            (recipient message) (sent_at message) (read_at message) (replied_at message)
            (sender_deleted_at message) t.

Definition set_read_at (message : Message) (t : option datetime) : Message :=
  mkMessage (id message) (subject message) (body message) (sender message)
            (recipient message) (sent_at message) t (replied_at message)
            (sender_deleted_at message) (recipient_deleted_at message).

(** The two conditional assignments shared by [delete] and [undelete]:
    the message after them and the flag they set. *)
Definition mark (message : Message) (user : request_user) (t : option datetime)
  : Message * bool :=
  let '(message, marked) :=
    if sender_is message user then (set_sender_deleted_at message t, true)
    else (message, false) in
  if recipient_is message user then (set_recipient_deleted_at message t, true)
  else (message, marked).

Definition delete_body (message_id : Z) (success_url : option string)
    (request : HttpRequest) : M HttpResponse :=
  let user := user request in
  message ← get_object_or_404 message_id;
  let success_url := next_url request success_url in
  let '(message, deleted) := mark message user (Some now) in
  if deleted : bool then
    Message_save message;;
    messages_info request "Message successfully deleted.";;
    (if notification globals
     then notification_send user "messages_deleted" message
     else ret ());;
    ret (HttpResponseRedirect success_url)
  else raise Http404.

Definition undelete_body (message_id : Z) (success_url : option string)
    (request : HttpRequest) : M HttpResponse :=
  let user := user request in
  message ← get_object_or_404 message_id;
  let success_url := next_url request success_url in
  let '(message, undeleted) := mark message user None in
  if undeleted : bool then
    Message_save message;;
    messages_info request "Message successfully recovered.";;
    (if notification globals
     then notification_send user "messages_recovered" message
     else ret ());;
    ret (HttpResponseRedirect success_url)
  else raise Http404.

Definition view_body (message_id : Z) (template_name : string)
    (request : HttpRequest) : M HttpResponse :=
  let user := user request in
  message ← get_object_or_404 message_id;
  if negb (sender_is message user) && negb (recipient_is message user)
  then raise Http404
  else
    message ←
      (if bool_decide (read_at message = None) && recipient_is message user
       then let message := set_read_at message (Some now) in
            Message_save message;; ret message
       else ret message);
    ret (render_to_response template_name (ctx_message message) request).

(** *** The views as the module exports them: each one decorated *)

Definition inbox t := login_required site (inbox_body t).
Definition outbox t := login_required site (outbox_body t).
Definition trash t := login_required site (trash_body t).
Definition compose r fc t s rf := login_required site (compose_body r fc t s rf).
Definition reply i fc t s rf := login_required site (reply_body i fc t s rf).
Definition delete i s := login_required site (delete_body i s).
Definition undelete i s := login_required site (undelete_body i s).
Definition view i t := login_required site (view_body i t).

End Views.

(** The names the module defines as views, in source order. *)
Inductive view_name : Type :=
  | Inbox | Outbox | Trash | Compose | Reply | Delete | Undelete | View.

Definition view_names : list view_name :=
  [Inbox; Outbox; Trash; Compose; Reply; Delete; Undelete; View].

(** A call of one of the views with its arguments after [request]. *)
Inductive call : Type :=
  | call_inbox (template_name : string)
  | call_outbox (template_name : string)
  | call_trash (template_name : string)
  | call_compose (recipient : option string) (form_class : FormClass)
      (template_name : string) (success_url : option string)
      (recipient_filter : option (User → pyobj))
  | call_reply (message_id : Z) (form_class : FormClass)
      (template_name : string) (success_url : option string)
      (recipient_filter : option (User → pyobj))
  | call_delete (message_id : Z) (success_url : option string)
  | call_undelete (message_id : Z) (success_url : option string)
  | call_view (message_id : Z) (template_name : string).

Definition name_of (c : call) : view_name :=
  match c with
  | call_inbox _ => Inbox
  | call_outbox _ => Outbox
  | call_trash _ => Trash
  | call_compose _ _ _ _ _ => Compose
  | call_reply _ _ _ _ _ => Reply
  | call_delete _ _ => Delete
  | call_undelete _ _ => Undelete
  | call_view _ _ => View
  end.

(** Running a call: the response or the exception, and the world after. *)
Definition run `{SetIteration} (site : Site) (globals : Globals) (now : datetime)
    (c : call) (request : HttpRequest) : M HttpResponse :=
  match c with
  | call_inbox t => inbox site t request
  | call_outbox t => outbox site t request
  | call_trash t => trash site t request
  | call_compose r fc t s rf => compose site r fc t s rf request
  | call_reply i fc t s rf => reply site i fc t s rf request
  | call_delete i s => delete site globals now i s request
  | call_undelete i s => undelete site globals i s request
  | call_view i t => view site now i t request
  end.

End views.

(** * Vocabulary of the properties *)

(** ** For [fields.py] *)

Section FieldVocabulary.
Import fields.

(** The trimmed, non-empty IDs of a submitted text: [ids_set] in [clean]. *)
Definition submitted (s : string) : gset string :=
  strip_ids (list_to_set (split "," s)).

(** The set [ids_set] as [clean] builds it from a text. *)
Definition ids_set_of `{SetIteration} (s : string) : pyset :=
  set_of (strip <$> filter (λ uid, strip uid ≠ "") (iterate (set_of (split "," s)))).

(** Whether the filter of the field, if it has one, rejects [u]. *)
Definition rejects (self : CommaSeparatedUserField) (u : User) : bool :=
  match _recipient_filter self with
  | Some recipient_filter => is_False (recipient_filter u)
  | None => false
  end.

(** Three users for the examples. *)
Definition ann : User := mkUser 1 "ann" "-- Ann".

Definition bob : User := mkUser 2 "bob" "-- Bob".

Definition cy : User := mkUser 3 "cy" "-- Cy".

(** A field as a form declares it by default, and one declared optional. *)
Definition required_field : CommaSeparatedUserField := mkField true None.

Definition optional_field : CommaSeparatedUserField := mkField false None.

(** A field whose filter returns [False] for the user with key 2 only. *)
Definition not_bob (u : User) : pyobj := PyBool (negb (bool_decide (pk u = 2))).

Definition filtered_field : CommaSeparatedUserField := mkField true (Some not_bob).

(** The characters that text read as an integer may hold in one version
    of the language or another: the digits, the two signs, white space, the
    underscore between digits and the suffix [L]. Text with any other
    character is no integer in any of them. *)
Definition in_int_text (c : ascii) : bool :=
  let n := nat_of_ascii c in
  ((48 <=? n)%nat && (n <=? 57)%nat) || (n =? 43)%nat || (n =? 45)%nat
  || isspace c || (n =? 95)%nat || (n =? 76)%nat || (n =? 108)%nat.


(** C1 as the specification words it, for a field, a table and a text: the
    unknown IDs are the submitted IDs minus the pk-strings of the users
    found; a non-empty difference is reported, in some order, by the
    [ValidationError]; an empty one makes [clean] return the users found. *)
Definition validates_by_difference `{SetIteration} (self : CommaSeparatedUserField)
    (tbl : list User) (s : string) : Prop :=
  ∃ found,
    User_objects_filter_pk__in tbl (elements (submitted s)) = Return found ∧
    let unknown_ids := submitted s ∖ pk_strings found in
    (unknown_ids ≠ ∅ →
       ∃ named, named ≡ₚ elements unknown_ids ∧
         clean self tbl (PyStr s) = Raise (ValidationError (incorrect_message named))) ∧
    (unknown_ids = ∅ → clean self tbl (PyStr s) = Return (PyList found)).

(** C10 as the specification words it: every falsy value gives [''], and
    every list or tuple comes back unchanged. *)
Definition clean_edge_cases `{SetIteration} (self : CommaSeparatedUserField)
    (tbl : list User) (value : pyobj) : Prop :=
  (truthy value = false → clean self tbl value = Return (PyStr "")) ∧
  (is_list_or_tuple value = true → clean self tbl value = Return value).

End FieldVocabulary.

(** ** For [views.py] *)

Section ViewVocabulary.
Import views.

(** The rows of the table carry their own key. *)
Definition keyed (tbl : gmap Z Message) : Prop :=
  ∀ k m, tbl !! k = Some m → id m = k.

(** Every field except the two soft-delete markers agrees. *)
Definition same_but_markers (m0 m1 : Message) : Prop :=
  id m1 = id m0 ∧ subject m1 = subject m0 ∧ body m1 = body m0 ∧
  sender m1 = sender m0 ∧ recipient m1 = recipient m0 ∧
  sent_at m1 = sent_at m0 ∧ read_at m1 = read_at m0 ∧ replied_at m1 = replied_at m0.

(** A small site: three users, one message from ann to bob. *)
Definition example_site : Site :=
  mkSite (λ name, "/" ++ name ++ "/") (λ _, "/accounts/login/")
         (λ _ _, []) (λ _ _, []) (λ _ _, []).

Definition hello : Message :=
  mkMessage 10 "hi" "hello bob" ann (Some bob) (Some 100) None None None None.

Definition example_world : World := mkWorld {[10 := hello]} [ann; bob; cy] [] [].

Definition request_of (user : request_user) : HttpRequest := mkRequest user "GET" ∅ ∅.

Definition with_notification : Globals := mkGlobals true.

Definition without_notification : Globals := mkGlobals false.

(** C4 as the specification words it, for one call of [delete] on a world
    where [m] is the stored message: a sender or recipient gets the redirect
    and the stored message, still there, has the matching marker(s) at the
    current time; anybody else gets [Http404] and an unchanged world. *)
Definition delete_marks_or_404 (site : Site) (globals : Globals) (now : datetime)
    (message_id : Z) (success_url : option string) (request : HttpRequest)
    (w : World) (m : Message) : Prop :=
  let '(outcome, w') := delete site globals now message_id success_url request w in
  if sender_is m (user request) || recipient_is m (user request) then
    outcome = Return (HttpResponseRedirect (next_url site request success_url)) ∧
    ∃ m', Message_objects w' !! message_id = Some m' ∧
      sender_deleted_at m'
      = (if sender_is m (user request) then Some now else sender_deleted_at m) ∧
      recipient_deleted_at m'
      = (if recipient_is m (user request) then Some now else recipient_deleted_at m)
  else outcome = Raise Http404 ∧ w' = w.

(** C5 as the specification words it, for one call of [view]: a user who is
    neither sender nor recipient gets [Http404] and an unchanged world; the
    recipient of an unread message has [read_at] set to the current time
    and saved; every other permitted access changes nothing. *)
Definition view_reads_or_404 (site : Site) (now : datetime) (message_id : Z)
    (template_name : string) (request : HttpRequest) (w : World) (m : Message) : Prop :=
  let '(outcome, w') := view site now message_id template_name request w in
  if negb (sender_is m (user request)) && negb (recipient_is m (user request)) then
    outcome = Raise Http404 ∧ w' = w
  else if recipient_is m (user request) && bool_decide (read_at m = None) then
    outcome = Return (render_to_response template_name
                        (ctx_message (set_read_at m (Some now))) request) ∧
    Message_objects w' = <[message_id := set_read_at m (Some now)]> (Message_objects w) ∧
    read_at (set_read_at m (Some now)) = Some now ∧
    User_objects w' = User_objects w
  else
    outcome = Return (render_to_response template_name (ctx_message m) request) ∧
    w' = w.

(** A view saves when some call of it changes the table of messages. *)
Definition saves `{SetIteration} (v : view_name) : Prop :=
  ∃ site globals now c request w,
    name_of c = v ∧
    Message_objects (run site globals now c request w).2 ≠ Message_objects w.

(** The message a call addresses, if it addresses one. *)
Definition message_id_of (c : call) : option Z :=
  match c with
  | call_reply i _ _ _ _ | call_delete i _ | call_undelete i _ | call_view i _ => Some i
  | _ => None
  end.

(** A view checks permission when its calls address a message and every
    logged-in user who is neither the sender nor the recipient of that
    stored message gets [Http404] with nothing changed. *)
Definition checks_permission `{SetIteration} (v : view_name) : Prop :=
  (∃ c, name_of c = v ∧ is_Some (message_id_of c)) ∧
  ∀ site globals now c request w message_id m,
    name_of c = v → message_id_of c = Some message_id →
    is_authenticated (user request) = true →
    Message_objects w !! message_id = Some m →
    sender_is m (user request) = false → recipient_is m (user request) = false →
    run site globals now c request w = (Raise Http404, w).

(** C6 as the specification words it. *)
Definition six_views_each_saving `{SetIteration} : Prop :=
  length view_names = 6%nat ∧
  ∀ v, v ∈ view_names → checks_permission v ∧ saves v.

(** A form class that accepts everything and stores one new message. *)
Definition accepting_form : FormClass :=
  mkFormClass true (λ _ _, Return true)
    (λ _ _ _ w, mkWorld (<[11 := hello]> (Message_objects w)) (User_objects w)
                        (flash w) (notices w)).

Definition post_of (user : request_user) : HttpRequest := mkRequest user "POST" ∅ ∅.

(** A form class whose [is_valid] answers [False] and whose [save] does
    nothing. *)
Definition rejecting_form : FormClass :=
  mkFormClass true (λ _ _, Return false) (λ _ _ _ w, w).

(** The table once [user] has deleted ([t] the time) or undeleted ([t]
    nothing) the message with key [message_id]: the marked copy is saved
    when a logged-in user is its sender or recipient, and nothing happens
    otherwise. *)
Definition marked_table (tbl : gmap Z Message) (message_id : Z) (user : request_user)
    (t : option datetime) : gmap Z Message :=
  match tbl !! message_id with
  | Some m =>
      if is_authenticated user && (sender_is m user || recipient_is m user)
      then <[id (mark m user t).1 := (mark m user t).1]> tbl
      else tbl
  | None => tbl
  end.

End ViewVocabulary.

(** * Properties *)

(** ** Text: [strip], [split], [join], [str] and [int] *)

Section Text.

Lemma all_chars_app P s t :
  all_chars P (s ++ t) = all_chars P s && all_chars P t.
Proof.
  induction s as [|c s IH]; simpl; [done|].
  by rewrite IH, andb_assoc.
Qed.

Lemma all_chars_impl (P Q : ascii → bool) s :
  (∀ c, P c = true → Q c = true) → all_chars P s = true → all_chars Q s = true.
Proof.
  intros HPQ. induction s as [|c s IH]; simpl; [done|].
  intros [Hc Hs]%andb_true_iff. apply andb_true_iff. auto.
Qed.

Lemma is_int_char_not_space c : is_int_char c = true → isspace c = false.
Proof.
  unfold is_int_char, isspace. generalize (nat_of_ascii c) as n. intros n H.
  repeat match goal with
         | |- context [(?a <=? ?b)%nat] => destruct (Nat.leb_spec a b)
         | |- context [(?a =? ?b)%nat] => destruct (Nat.eqb_spec a b)
         | H : context [(?a <=? ?b)%nat] |- _ => destruct (Nat.leb_spec a b)
         | H : context [(?a =? ?b)%nat] |- _ => destruct (Nat.eqb_spec a b)
         end; simpl in *; try done; lia.
Qed.

Lemma is_int_char_not_comma c : is_int_char c = true → Ascii.eqb c "," = false.
Proof.
  intros H. destruct (Ascii.eqb_spec c ",") as [->|]; [|done].
  by vm_compute in H.
Qed.

Lemma lstrip_no_space s :
  all_chars (λ c, negb (isspace c)) s = true → lstrip s = s.
Proof.
  destruct s as [|c s]; simpl; [done|].
  intros [Hc _]%andb_true_iff. by apply negb_true_iff in Hc as ->.
Qed.

Lemma rstrip_no_space s :
  all_chars (λ c, negb (isspace c)) s = true → rstrip s = s.
Proof.
  induction s as [|c s IH]; simpl; [done|].
  intros [Hc Hs]%andb_true_iff. rewrite (IH Hs).
  apply negb_true_iff in Hc as ->. by destruct s.
Qed.

Lemma strip_no_space s :
  all_chars (λ c, negb (isspace c)) s = true → strip s = s.
Proof.
  intros H. unfold strip. rewrite (lstrip_no_space _ H). by apply rstrip_no_space.
Qed.

(** A leading blank is dropped. *)
Lemma strip_leading_space s : strip (String " " s) = strip s.
Proof. reflexivity. Qed.

Lemma uint_chars d : all_chars is_int_char (NilEmpty.string_of_uint d) = true.
Proof. induction d; simpl; auto. Qed.

Lemma str_chars z : all_chars is_int_char (str z) = true.
Proof.
  assert (Hu : ∀ d, all_chars is_int_char (NilZero.string_of_uint d) = true).
  { intros d. destruct d; try done; apply (uint_chars (_ d)). }
  unfold str. destruct (Z.to_int z) as [d|d]; simpl; apply Hu.
Qed.

Lemma str_nonempty z : str z ≠ "".
Proof.
  unfold str. destruct (Z.to_int z) as [d|d]; simpl; [|done].
  by destruct d.
Qed.

Lemma strip_str z : strip (str z) = str z.
Proof.
  apply strip_no_space. eapply all_chars_impl; [|apply str_chars].
  intros c Hc. by rewrite (is_int_char_not_space c Hc).
Qed.

Lemma to_uint_nonnil p : Pos.to_uint p ≠ Decimal.Nil.
Proof. apply Unsigned.to_uint_nonnil. Qed.

(** [int(str(z)) == z] *)
Lemma int_literal_str z : int_literal (str z) = Some z.
Proof.
  unfold int_literal. rewrite strip_str.
  assert (Hplus : ∀ t, str z ≠ String "+" t).
  { intros t Ht. pose proof (str_chars z) as Hc. rewrite Ht in Hc. done. }
  assert (Hparse : NilZero.int_of_string (str z) = Some (Z.to_int z)).
  { unfold str. apply NilZero.isi.
    - destruct z; simpl; try done. intros [= H]. by apply to_uint_nonnil in H.
    - destruct z; simpl; try done. intros [= H]. by apply to_uint_nonnil in H. }
  destruct (str z) as [|c t] eqn:Hs; [by rewrite Hparse|].
  destruct (Ascii.eqb_spec c "+") as [->|Hc].
  - by destruct (Hplus t).
  - transitivity (Z.of_int <$> NilZero.int_of_string (String c t)).
    + destruct c as [[] [] [] [] [] [] [] []]; try done.
    + rewrite Hparse. simpl. by rewrite DecimalZ.of_to.
Qed.

Lemma int_str z : int (str z) = Return z.
Proof. unfold int. by rewrite int_literal_str. Qed.

Lemma str_inj z1 z2 : str z1 = str z2 → z1 = z2.
Proof.
  intros H. pose proof (int_literal_str z1) as H1. rewrite H, int_literal_str in H1.
  congruence.
Qed.

(** What [strip] leaves was there before, and what it drops is white space. *)
Lemma lstrip_chars P s :
  all_chars P (lstrip s) = true → all_chars (λ c, P c || isspace c) s = true.
Proof.
  induction s as [|c s IH]; simpl; [done|].
  destruct (isspace c) eqn:Hc.
  - intros Hs. rewrite orb_true_r. by apply IH.
  - simpl. intros [Hp Hs]%andb_true_iff. rewrite Hp. simpl.
    eapply all_chars_impl; [|exact Hs]. by intros c' ->.
Qed.

Lemma rstrip_chars P s :
  all_chars P (rstrip s) = true → all_chars (λ c, P c || isspace c) s = true.
Proof.
  induction s as [|c s IH]; simpl; [done|].
  destruct (rstrip s) as [|c' r] eqn:Hr.
  - destruct (isspace c) eqn:Hc; simpl.
    + intros _. rewrite orb_true_r. by apply IH.
    + rewrite andb_true_r. intros ->. by apply IH.
  - intros [Hp Hs]%andb_true_iff. rewrite Hp. by apply IH.
Qed.

Lemma strip_chars P s :
  all_chars P (strip s) = true → all_chars (λ c, P c || isspace c) s = true.
Proof.
  intros Hs%rstrip_chars%lstrip_chars.
  eapply all_chars_impl; [|exact Hs]. intros c. simpl. by destruct (P c), (isspace c).
Qed.

Lemma uint_of_string_chars s u :
  NilEmpty.uint_of_string s = Some u → all_chars in_int_text s = true.
Proof.
  revert u. induction s as [|c s IH]; [done|].
  cbn [NilEmpty.uint_of_string all_chars]. intros u Hu.
  destruct (NilEmpty.uint_of_string s) as [d|]; [|discriminate Hu].
  rewrite (IH d eq_refl), andb_true_r.
  destruct c as [[] [] [] [] [] [] [] []]; try discriminate Hu; reflexivity.
Qed.

Lemma int_literal_unfold s :
  int_literal s
  = match strip s with
    | "" => None
    | String c t =>
        if Ascii.eqb c "+"
        then (λ u, Z.of_int (Decimal.Pos u)) <$> NilZero.uint_of_string t
        else Z.of_int <$> NilZero.int_of_string (String c t)
    end.
Proof.
  unfold int_literal. destruct (strip s) as [|c t]; [done|].
  destruct c as [[] [] [] [] [] [] [] []]; reflexivity.
Qed.

(** Text that [int] reads holds nothing but digits, signs and white space. *)
Lemma int_literal_chars s z :
  int_literal s = Some z → all_chars in_int_text s = true.
Proof.
  rewrite int_literal_unfold. intros Hz.
  assert (Hzero : ∀ t u, NilZero.uint_of_string t = Some u →
                         all_chars in_int_text t = true).
  { intros [|c t] u; [done|]. apply uint_of_string_chars. }
  assert (Hstrip : all_chars in_int_text (strip s) = true).
  { destruct (strip s) as [|c t]; [done|].
    destruct (Ascii.eqb_spec c "+") as [->|Hplus].
    - destruct (NilZero.uint_of_string t) as [u|] eqn:Hu; [|discriminate Hz].
      by apply (Hzero t u).
    - unfold NilZero.int_of_string in Hz.
      destruct (Ascii.eqb_spec c "-") as [->|Hminus].
      + destruct (NilZero.uint_of_string t) as [u|] eqn:Hu; [|discriminate Hz].
        by apply (Hzero t u).
      + destruct (NilZero.uint_of_string (String c t)) as [u|] eqn:Hu;
          [|discriminate Hz].
        by apply (Hzero _ u). }
  apply strip_chars in Hstrip. eapply all_chars_impl; [|exact Hstrip].
  intros c. unfold in_int_text. destruct (isspace c); [|by rewrite orb_false_r].
  intros _. by rewrite !orb_true_r.
Qed.

End Text.

(** ** [split] undoes [join] *)

Section SplitJoin.

Lemma split_nonempty sep s : split sep s ≠ [].
Proof.
  destruct s as [|c s]; simpl; [done|].
  destruct (Ascii.eqb c sep); [done|]. by destruct (split sep s).
Qed.

(** A prefix without the separator stays in front of the first piece. *)
Lemma split_app_no_sep sep x rest :
  all_chars (λ c, negb (Ascii.eqb c sep)) x = true →
  split sep (x ++ rest) =
    match split sep rest with
    | [] => [x]
    | w :: ws => (x ++ w) :: ws
    end.
Proof.
  induction x as [|c x IH]; simpl.
  - intros _. destruct (split sep rest) eqn:E; [|done].
    by destruct (split_nonempty sep rest).
  - intros [Hc Hx]%andb_true_iff. apply negb_true_iff in Hc. rewrite Hc, (IH Hx).
    by destruct (split sep rest).
Qed.

Lemma split_no_sep sep x :
  all_chars (λ c, negb (Ascii.eqb c sep)) x = true → split sep x = [x].
Proof.
  induction x as [|c x IH]; simpl; [done|].
  intros [Hc Hx]%andb_true_iff. apply negb_true_iff in Hc. by rewrite Hc, (IH Hx).
Qed.

Lemma String_app_empty (x : string) : x ++ "" = x.
Proof.
  induction x as [|c x IH]; [done|].
  change (String c (x ++ "") = String c x). by rewrite IH.
Qed.

(** Splitting [', '.join(x :: l)] at the commas gives [x] and every other
    element with the blank still in front. *)
Lemma split_join_comma x l :
  Forall (λ y, all_chars (λ c, negb (Ascii.eqb c ",")) y = true) (x :: l) →
  split "," (join ", " (x :: l)) = x :: (String " " <$> l).
Proof.
  revert x. induction l as [|y l IH]; intros x Hall.
  - simpl. apply split_no_sep. by inversion Hall.
  - inversion Hall as [|? ? Hx Hyl]; subst.
    change (join ", " (x :: y :: l)) with (x ++ String "," (String " " (join ", " (y :: l)))).
    rewrite (split_app_no_sep _ _ _ Hx).
    change (split "," (String "," (String " " (join ", " (y :: l)))))
      with ("" :: split "," (" " ++ join ", " (y :: l))).
    cbv beta iota. rewrite String_app_empty. f_equal.
    rewrite (split_app_no_sep "," " " _ eq_refl), (IH y Hyl). done.
Qed.

End SplitJoin.

(** ** The sets and the lookup inside [clean] *)

Section Lookup.
Import fields.

Lemma elem_of_strip_ids (ids : gset string) y :
  y ∈ strip_ids ids ↔ ∃ uid, uid ∈ ids ∧ y = strip uid ∧ y ≠ "".
Proof.
  unfold strip_ids. rewrite elem_of_list_to_set, list_elem_of_fmap.
  split.
  - intros (uid & -> & [Hne Hin%elem_of_elements]%list_elem_of_filter). eauto.
  - intros (uid & Hin & -> & Hne). exists uid. split; [done|].
    apply list_elem_of_filter. split; [done|]. by apply elem_of_elements.
Qed.

Lemma elem_of_pk_strings users y :
  y ∈ pk_strings users ↔ ∃ u, u ∈ users ∧ y = str (pk u).
Proof.
  unfold pk_strings. rewrite elem_of_list_to_set, list_elem_of_fmap. split.
  - intros (u & -> & Hu). by exists u.
  - intros (u & Hu & ->). by exists u.
Qed.

Lemma for_each_Return {A B} (f : A → result B) (g : A → B) l :
  (∀ x, x ∈ l → f x = Return (g x)) → for_each f l = Return (g <$> l).
Proof.
  induction l as [|x l IH]; intros H; simpl; [done|].
  rewrite (H x) by left. simpl.
  rewrite IH; [done|]. intros y Hy. apply H. by right.
Qed.

Lemma for_each_cons {A B} (f : A → result B) x l :
  for_each f (x :: l)
  = bind (f x) (λ y, bind (for_each f l) (λ ys, Return (y :: ys))).
Proof. reflexivity. Qed.

(** The first ID that is no integer ends the coercion of the whole list. *)
Lemma for_each_int_fails (ids : list string) :
  (∃ uid, uid ∈ ids ∧ int_literal uid = None) →
  ∃ literal, literal ∈ ids ∧ int_literal literal = None ∧
             for_each int ids = Raise (ValueError literal).
Proof.
  induction ids as [|x ids IH]; intros (uid & Hin & Hnone).
  - by apply elem_of_nil in Hin.
  - destruct (int_literal x) as [z|] eqn:Hx.
    + apply elem_of_cons in Hin as [->|Hin]; [congruence|].
      destruct IH as (literal & Hl & Hlit & Hfor); [by exists uid|].
      exists literal. split; [by right|]. split; [done|].
      rewrite for_each_cons. unfold int at 1. rewrite Hx. cbn [bind]. by rewrite Hfor.
    + exists x. split; [left|]. split; [done|].
      rewrite for_each_cons. unfold int at 1. by rewrite Hx.
Qed.

(** When all of them are integers the coercion gives their values. *)
Lemma for_each_int_all (ids : list string) :
  (∀ uid, uid ∈ ids → is_Some (int_literal uid)) →
  for_each int ids = Return ((λ uid, default 0 (int_literal uid)) <$> ids).
Proof.
  intros Hall. apply for_each_Return. intros uid Hin.
  destruct (Hall uid Hin) as [z Hz]. unfold int. by rewrite Hz.
Qed.

Lemma forallb_Permutation {A} (f : A → bool) (l1 l2 : list A) :
  l1 ≡ₚ l2 → forallb f l1 = forallb f l2.
Proof.
  induction 1 as [|x l1 l2 _ IH|x y l|l1 l2 l3 _ IH1 _ IH2]; simpl.
  - done.
  - by rewrite IH.
  - by destruct (f x), (f y).
  - by rewrite IH1.
Qed.

(** The lookup does not depend on the order of the IDs, except for which
    of the IDs that are no integers the [ValueError] is about. *)
Lemma filter_pk__in_Permutation tbl (l1 l2 : list string) :
  l1 ≡ₚ l2 →
  match User_objects_filter_pk__in tbl l1 with
  | Return found => User_objects_filter_pk__in tbl l2 = Return found
  | Raise OverflowError => User_objects_filter_pk__in tbl l2 = Raise OverflowError
  | Raise _ =>
      ∃ a, a ∈ l2 ∧ int_literal a = None ∧
           User_objects_filter_pk__in tbl l2 = Raise (ValueError a)
  end.
Proof.
  intros Hperm. unfold User_objects_filter_pk__in.
  destruct (decide (Forall (λ uid, is_Some (int_literal uid)) l1)) as [Hall|Hsome].
  - assert (Hall2 : Forall (λ uid, is_Some (int_literal uid)) l2) by by rewrite <- Hperm.
    rewrite Forall_forall in Hall, Hall2.
    rewrite (for_each_int_all l1 Hall), (for_each_int_all l2 Hall2).
    cbn [mbind result_bind bind].
    set (g := λ uid : string, default 0 (int_literal uid)).
    assert (Hkeys : g <$> l1 ≡ₚ g <$> l2) by by rewrite Hperm.
    rewrite (forallb_Permutation _ _ _ Hkeys).
    assert (filter (λ u, pk u ∈ g <$> l1) tbl = filter (λ u, pk u ∈ g <$> l2) tbl) as ->.
    { apply list_filter_iff. intros u. by rewrite Hkeys. }
    by destruct (forallb _ (g <$> l2)).
  - apply not_Forall_Exists in Hsome; [|apply _].
    apply Exists_exists in Hsome as (uid & Hin & Hnone).
    assert (Hnone' : int_literal uid = None).
    { by apply eq_None_not_Some. }
    destruct (for_each_int_fails l1) as (a1 & _ & _ & ->); [by exists uid|].
    destruct (for_each_int_fails l2) as (a2 & Ha2 & Hlit2 & Hfor2).
    { exists uid. by rewrite <- Hperm. }
    cbn [mbind result_bind bind]. exists a2. by rewrite Hfor2.
Qed.

(** The lookup raises nothing but these two. *)
Lemma filter_pk__in_Raise tbl l e :
  User_objects_filter_pk__in tbl l = Raise e →
  e = OverflowError ∨ ∃ a, e = ValueError a.
Proof.
  unfold User_objects_filter_pk__in.
  destruct (decide (Forall (λ uid, is_Some (int_literal uid)) l)) as [Hall|Hsome].
  - rewrite Forall_forall in Hall. rewrite (for_each_int_all l Hall).
    cbn [mbind result_bind bind]. destruct (forallb _ _); [done|].
    intros [= <-]. by left.
  - apply not_Forall_Exists in Hsome; [|apply _].
    apply Exists_exists in Hsome as (uid & Hin & Hnone).
    destruct (for_each_int_fails l) as (a & _ & _ & ->).
    { exists uid. split; [done|]. by apply eq_None_not_Some. }
    intros [= <-]. right. by exists a.
Qed.

(** When every submitted ID is the decimal text of an integer that fits the
    key column, or is the key of a stored row, the lookup succeeds, and
    finds the rows whose key, printed, was submitted. *)
Lemma filter_pk__in_canonical tbl (ids : gset string) :
  (∀ uid, uid ∈ ids → ∃ z, uid = str z ∧ (fits z = true ∨ z ∈ pk <$> tbl)) →
  User_objects_filter_pk__in tbl (elements ids)
  = Return (filter (λ u, str (pk u) ∈ ids) tbl).
Proof.
  intros Hcanon. unfold User_objects_filter_pk__in.
  rewrite for_each_int_all.
  2:{ intros uid Hin%elem_of_elements. destruct (Hcanon uid Hin) as (z & -> & _).
      rewrite int_literal_str. by exists z. }
  cbn [mbind result_bind bind].
  assert (forallb (λ key, fits key || bool_decide (key ∈ pk <$> tbl))
            ((λ uid, default 0 (int_literal uid)) <$> elements ids) = true) as ->.
  { apply Is_true_true, forallb_True, Forall_forall.
    intros key (uid & -> & Hin%elem_of_elements)%list_elem_of_fmap.
    destruct (Hcanon uid Hin) as (z & -> & [Hfits|Hstored]).
    - rewrite int_literal_str. simpl. by rewrite Hfits.
    - rewrite int_literal_str. simpl. rewrite (bool_decide_eq_true_2 _ Hstored).
      by rewrite orb_true_r. }
  f_equal. apply list_filter_iff. intros u.
  rewrite list_elem_of_fmap. split.
  - intros (uid & Hpk & Hin%elem_of_elements).
    destruct (Hcanon uid Hin) as (z & -> & _).
    rewrite int_literal_str in Hpk. simpl in Hpk. by rewrite Hpk.
  - intros Hin. exists (str (pk u)). rewrite int_literal_str. split; [done|].
    by apply elem_of_elements.
Qed.

(** The loop never stops for want of fuel: once the fuel covers what is
    left of the list, more of it changes nothing. The length of the list at
    entry, which [clean] passes, covers all of it. (A rejected user ends the
    loop at once, since [r.gk] raises.) *)
Lemma filter_loop_fuel_enough rf fuel fuel' i users invalid :
  (length users - i ≤ fuel)%nat → (fuel ≤ fuel')%nat →
  filter_loop fuel rf i users invalid = filter_loop fuel' rf i users invalid.
Proof.
  revert fuel' i users invalid.
  induction fuel as [|fuel IH]; intros fuel' i users invalid Hlen Hle.
  - destruct fuel' as [|fuel']; simpl; [done|].
    rewrite lookup_ge_None_2; [done|lia].
  - destruct fuel' as [|fuel']; [lia|]. simpl.
    destruct (users !! i) as [r|] eqn:Hr; [|done].
    apply lookup_lt_Some in Hr.
    destruct (is_False (rf r)).
    + reflexivity.
    + apply IH; lia.
Qed.

(** With no user rejected the loop leaves both lists as they are. *)
Lemma filter_loop_accepts rf fuel i users invalid :
  (∀ u, u ∈ users → is_False (rf u) = false) →
  filter_loop fuel rf i users invalid = Return (users, invalid).
Proof.
  intros Hacc. revert i. induction fuel as [|fuel IH]; intros i; simpl; [done|].
  destruct (users !! i) as [r|] eqn:Hr; [|done].
  rewrite Hacc; [apply IH|]. by eapply list_elem_of_lookup_2.
Qed.

(** The first rejected user ends the loop with the [AttributeError]. *)
Lemma filter_loop_rejects rf fuel i users invalid j r :
  users !! j = Some r → is_False (rf r) = true → (i ≤ j)%nat → (j - i < fuel)%nat →
  filter_loop fuel rf i users invalid = Raise (AttributeError "gk").
Proof.
  intros Hj Hrej. revert i.
  induction fuel as [|fuel IH]; intros i Hij Hfuel; [lia|]. simpl.
  destruct (users !! i) as [r'|] eqn:Hr'.
  - destruct (is_False (rf r')) eqn:Hrej'; [done|].
    assert (i ≠ j) by (intros ->; congruence).
    apply IH; lia.
  - apply lookup_ge_None in Hr'. apply lookup_lt_Some in Hj. lia.
Qed.

End Lookup.

(** ** [clean] on text *)

Section CleanText.
Import fields.

Lemma fmap_attr_str_AText (l : list string) : attr_str <$> (AText <$> l) = l.
Proof. induction l as [|x l IH]; simpl; [done|]. by f_equal. Qed.

(** What is in [ids_set], whatever the order of iteration. *)
Lemma members_ids_set_of `{SetIteration} s : members (ids_set_of s) = submitted s.
Proof.
  unfold ids_set_of, submitted, strip_ids. cbn [members].
  apply list_to_set_perm_L. f_equiv. f_equiv. apply iterate_members.
Qed.

Lemma iterate_ids_set_of `{SetIteration} s :
  iterate (ids_set_of s) ≡ₚ elements (submitted s).
Proof. by rewrite iterate_members, members_ids_set_of. Qed.

(** [clean] on a non-empty text, past the tests on the value. *)
Lemma clean_text_unfold `{SetIteration} self tbl s :
  s ≠ "" →
  clean self tbl (PyStr s)
  = bind (User_objects_filter_pk__in tbl (iterate (ids_set_of s))) (λ users,
      let unknown_ids :=
        set_xor (ids_set_of s) (set_of ((λ user, str (pk user)) <$> users)) in
      bind (match _recipient_filter self with
            | Some recipient_filter =>
                filter_loop (length users) recipient_filter 0 users []
            | None => Return (users, [])
            end)
           (λ '(users, invalid_users),
              if negb (bool_decide (members unknown_ids = ∅))
                 || negb (bool_decide (invalid_users = []))
              then Raise (ValidationError
                            (incorrect_message
                               (attr_str <$> ((AText <$> iterate unknown_ids)
                                              ++ invalid_users)%list)))
              else Return (PyList users))).
Proof.
  intros Hs. unfold clean, Field_clean.
  assert (EMPTY_VALUES (PyStr s) = false) as -> by by destruct s.
  assert (truthy (PyStr s) = true) as -> by by destruct s.
  reflexivity.
Qed.

Lemma existsb_rejects_true self found :
  existsb (rejects self) found = true ↔ ∃ r, r ∈ found ∧ rejects self r = true.
Proof.
  induction found as [|u found IH]; simpl.
  - split; [done|]. by intros (r & ?%elem_of_nil & _).
  - rewrite orb_true_iff, IH. split.
    + intros [Hu|(r & Hr & Hrej)]; [exists u; split; [left|done]|].
      exists r. split; [by right|done].
    + intros (r & [->|Hr]%elem_of_cons & Hrej); [by left|]. right. by exists r.
Qed.

Lemma existsb_rejects_false self found :
  existsb (rejects self) found = false ↔ ∀ r, r ∈ found → rejects self r = false.
Proof.
  split.
  - intros Hex r Hr. destruct (rejects self r) eqn:Hrej; [|done].
    assert (existsb (rejects self) found = true) as Ht
      by (apply existsb_rejects_true; by exists r).
    congruence.
  - intros Hall. destruct (existsb (rejects self) found) eqn:Hex; [|done].
    apply existsb_rejects_true in Hex as (r & Hr & Hrej).
    rewrite (Hall r Hr) in Hrej. discriminate.
Qed.

(** What [clean] does with a non-empty text, told by what the lookup of the
    submitted IDs gives: in every order of iteration the same, up to the
    order of the IDs in the error text and to which ID that is no integer
    the [ValueError] is about. *)
Lemma clean_text_outcome `{SetIteration} self tbl s :
  s ≠ "" →
  match User_objects_filter_pk__in tbl (elements (submitted s)) with
  | Return found =>
      if existsb (rejects self) found
      then clean self tbl (PyStr s) = Raise (AttributeError "gk")
      else if bool_decide (submitted s ^^ pk_strings found = ∅)
      then clean self tbl (PyStr s) = Return (PyList found)
      else ∃ named, named ≡ₚ elements (submitted s ^^ pk_strings found) ∧
             clean self tbl (PyStr s)
             = Raise (ValidationError (incorrect_message named))
  | Raise OverflowError => clean self tbl (PyStr s) = Raise OverflowError
  | Raise _ =>
      ∃ a, a ∈ submitted s ∧ int_literal a = None ∧
           clean self tbl (PyStr s) = Raise (ValueError a)
  end.
Proof.
  intros Hs. rewrite (clean_text_unfold self tbl s Hs).
  pose proof (filter_pk__in_Permutation tbl _ _
                (symmetry (iterate_ids_set_of s))) as Hlookup.
  destruct (User_objects_filter_pk__in tbl (elements (submitted s)))
    as [found|[]];
    try (destruct Hlookup as (a & Ha & Hlit & ->); exists a; split; [|done];
         rewrite iterate_ids_set_of in Ha; by apply elem_of_elements in Ha).
  - rewrite Hlookup. cbn [bind].
    assert (Hmembers : members (set_xor (ids_set_of s)
                                  (set_of ((λ user, str (pk user)) <$> found)))
                       = submitted s ^^ pk_strings found).
    { cbn [members]. by rewrite members_ids_set_of. }
    destruct (existsb (rejects self) found) eqn:Hrej.
    + apply existsb_rejects_true in Hrej as (r & Hr & Hrej).
      unfold rejects in Hrej. destruct (_recipient_filter self) as [rf|]; [|done].
      apply list_elem_of_lookup in Hr as [j Hj].
      rewrite (filter_loop_rejects rf _ 0 found [] j r Hj Hrej); [done|lia|].
      apply lookup_lt_Some in Hj. lia.
    + assert (match _recipient_filter self with
              | Some rf => filter_loop (length found) rf 0 found []
              | None => Return (found, [])
              end = Return (found, [])) as ->.
      { pose proof (proj1 (existsb_rejects_false self found) Hrej) as Hacc.
        unfold rejects in Hacc. destruct (_recipient_filter self) as [rf|]; [|done].
        by apply filter_loop_accepts. }
      cbn [bind]. rewrite Hmembers, orb_false_r, app_nil_r, fmap_attr_str_AText.
      case_bool_decide as Hu; cbn [negb]; [done|].
      eexists. split; [|reflexivity]. by rewrite iterate_members, Hmembers.
  - by rewrite Hlookup.
Qed.

(** The three ways out that the later proofs use. *)
Lemma clean_text_Return `{SetIteration} self tbl s found :
  s ≠ "" →
  User_objects_filter_pk__in tbl (elements (submitted s)) = Return found →
  (∀ u, u ∈ found → rejects self u = false) →
  submitted s ^^ pk_strings found = ∅ →
  clean self tbl (PyStr s) = Return (PyList found).
Proof.
  intros Hs Hfound Hacc Hempty.
  pose proof (clean_text_outcome self tbl s Hs) as Hout. rewrite Hfound in Hout.
  rewrite (proj2 (existsb_rejects_false self found) Hacc) in Hout.
  by rewrite bool_decide_eq_true_2 in Hout.
Qed.

Lemma clean_text_Raise `{SetIteration} self tbl s found :
  s ≠ "" →
  User_objects_filter_pk__in tbl (elements (submitted s)) = Return found →
  (∀ u, u ∈ found → rejects self u = false) →
  submitted s ^^ pk_strings found ≠ ∅ →
  ∃ named, named ≡ₚ elements (submitted s ^^ pk_strings found) ∧
    clean self tbl (PyStr s) = Raise (ValidationError (incorrect_message named)).
Proof.
  intros Hs Hfound Hacc Hne.
  pose proof (clean_text_outcome self tbl s Hs) as Hout. rewrite Hfound in Hout.
  rewrite (proj2 (existsb_rejects_false self found) Hacc) in Hout.
  by rewrite bool_decide_eq_false_2 in Hout.
Qed.

Lemma clean_text_rejected `{SetIteration} self tbl s found r :
  s ≠ "" →
  User_objects_filter_pk__in tbl (elements (submitted s)) = Return found →
  r ∈ found → rejects self r = true →
  clean self tbl (PyStr s) = Raise (AttributeError "gk").
Proof.
  intros Hs Hfound Hin Hrej.
  pose proof (clean_text_outcome self tbl s Hs) as Hout. rewrite Hfound in Hout.
  assert (existsb (rejects self) found = true) as Hex
    by (apply existsb_rejects_true; by exists r).
  by rewrite Hex in Hout.
Qed.

Lemma symmetric_difference_subseteq (a b : gset string) :
  b ⊆ a → a ^^ b = a ∖ b.
Proof.
  intros Hsub. unfold symmetric_difference. apply set_eq. intros x.
  rewrite elem_of_union, !elem_of_difference. split; [|by left].
  intros [H|[Hb Ha]]; [done|]. destruct Ha. by apply Hsub.
Qed.

End CleanText.

(** ** The claims about [fields.py] *)

Section FieldClaims.
Import fields.

(** C1, refuted as stated, in whatever order the sets are iterated. The
    text ["01"] finds the user with key 1, whose pk-string ["1"] was not
    submitted: the error names ["1"] besides ["01"], which is the symmetric
    difference and not the difference. The empty text has an empty
    difference, and [clean] returns [''] instead of the empty list of users.
    The text ["abc"] is no integer, and the lookup itself fails with a
    [ValueError]. *)
Lemma clean_difference_counterexample :
  (∀ order : SetIteration, ¬ validates_by_difference required_field [ann] "01") ∧
  (∀ order : SetIteration, ¬ validates_by_difference optional_field [ann] "") ∧
  (∀ order : SetIteration, ¬ validates_by_difference required_field [ann] "abc") ∧
  (∀ order : SetIteration,
     ∃ named, named ≡ₚ ["01"; "1"] ∧
       clean required_field [ann] (PyStr "01")
       = Raise (ValidationError (incorrect_message named))) ∧
  (∀ order : SetIteration, clean optional_field [ann] (PyStr "") = Return (PyStr "")) ∧
  (∀ order : SetIteration,
     clean required_field [ann] (PyStr "abc") = Raise (ValueError "abc")).
Proof.
  assert (Hboth : ∀ order : SetIteration,
            ∃ named, named ≡ₚ ["01"; "1"] ∧
              clean required_field [ann] (PyStr "01")
              = Raise (ValidationError (incorrect_message named))).
  { intros order.
    destruct (clean_text_Raise required_field [ann] "01" [ann])
      as (named & Hperm & Hclean).
    - done.
    - by vm_compute.
    - done.
    - apply (non_empty_inhabited_L "01"). compute_done.
    - exists named. split; [|done]. rewrite Hperm.
      assert (elements (submitted "01" ^^ pk_strings [ann]) = ["1"; "01"]) as ->
        by by vm_compute.
      apply perm_swap. }
  split; [|split; [|split; [|split; [done|split]]]].
  - intros order (found & Hfound & Hraise & _).
    assert (found = [ann]) as ->
      by (vm_compute in Hfound; injection Hfound as <-; reflexivity).
    destruct Hraise as (named & Hperm & Hclean).
    { apply (non_empty_inhabited_L "01"). compute_done. }
    assert (elements (submitted "01" ∖ pk_strings [ann]) = ["01"]) as Hel
      by by vm_compute.
    rewrite Hel in Hperm. apply Permutation_singleton_r in Hperm as ->.
    destruct (Hboth order) as (named & Hperm & Hclean').
    rewrite Hclean in Hclean'. symmetry in Hperm.
    apply Permutation_length_2_inv in Hperm as [->| ->]; vm_compute in Hclean';
      discriminate Hclean'.
  - intros order (found & Hfound & _ & Hreturn).
    assert (found = []) as ->
      by (vm_compute in Hfound; injection Hfound as <-; reflexivity).
    specialize (Hreturn ltac:(by vm_compute)). discriminate Hreturn.
  - intros order (found & Hfound & _). vm_compute in Hfound. discriminate Hfound.
  - intros order. reflexivity.
  - intros order.
    pose proof (clean_text_outcome required_field [ann] "abc" ltac:(done)) as Hout.
    assert (User_objects_filter_pk__in [ann] (elements (submitted "abc"))
            = Raise (ValueError "abc")) as Hlookup by by vm_compute.
    rewrite Hlookup in Hout. destruct Hout as (a & Ha & _ & ->).
    assert (submitted "abc" = {["abc"]}) as Hsub by by vm_compute.
    rewrite Hsub in Ha. by apply elem_of_singleton in Ha as ->.
Qed.

(** C1, amended. In whatever order the sets are iterated, for every
    non-empty text whose trimmed non-empty IDs are decimal integers as [str]
    writes them and fit the key column, on a field whose filter (if any)
    rejects no user: the lookup finds the rows whose pk-string was
    submitted, the unknown IDs that [clean] computes are the submitted IDs
    minus the pk-strings of those rows, a non-empty difference raises the
    [ValidationError] naming exactly its elements, in some order, and an
    empty one returns the list of the rows found. *)
Theorem clean_unknown_ids_difference `{SetIteration} self tbl s :
  s ≠ "" →
  (∀ uid, uid ∈ submitted s → ∃ z, uid = str z ∧ fits z = true) →
  (∀ u, u ∈ tbl → rejects self u = false) →
  let found := filter (λ u, str (pk u) ∈ submitted s) tbl in
  let unknown_ids := submitted s ∖ pk_strings found in
  (∀ ids, ids ≡ₚ elements (submitted s) →
     User_objects_filter_pk__in tbl ids = Return found) ∧
  submitted s ^^ pk_strings found = unknown_ids ∧
  (unknown_ids ≠ ∅ →
     ∃ named, named ≡ₚ elements unknown_ids ∧
       clean self tbl (PyStr s) = Raise (ValidationError (incorrect_message named))) ∧
  (unknown_ids = ∅ → clean self tbl (PyStr s) = Return (PyList found)).
Proof.
  intros Hs Hcanon Hacc found unknown_ids.
  assert (Hfound : User_objects_filter_pk__in tbl (elements (submitted s))
                   = Return found).
  { apply filter_pk__in_canonical. intros uid Hin.
    destruct (Hcanon uid Hin) as (z & -> & Hz). exists z. by split; [|left]. }
  assert (Hsub : pk_strings found ⊆ submitted s).
  { intros y (u & Hu & ->)%elem_of_pk_strings.
    by apply list_elem_of_filter in Hu as [? _]. }
  assert (Hdiff : submitted s ^^ pk_strings found = unknown_ids)
    by by apply symmetric_difference_subseteq.
  assert (Hacc' : ∀ u, u ∈ found → rejects self u = false).
  { intros u [_ Hin]%list_elem_of_filter. by apply Hacc. }
  split; [|split; [done|split; intros Hu]].
  - intros ids Hperm.
    pose proof (filter_pk__in_Permutation tbl _ _ (symmetry Hperm)) as Hlookup.
    by rewrite Hfound in Hlookup.
  - rewrite <- Hdiff. apply clean_text_Raise; [done..|by rewrite Hdiff].
  - apply clean_text_Return; [done..|by rewrite Hdiff].
Qed.

(** An instance, in whatever order the sets are iterated: three users
    stored, two of the four submitted IDs unknown. *)
Lemma clean_unknown_ids_difference_witness :
  (∀ order : SetIteration,
     validates_by_difference required_field [ann; bob; cy] "1, 7,2 ,, 4") ∧
  submitted "1, 7,2 ,, 4" ∖ pk_strings [ann; bob] = {["4"; "7"]}.
Proof.
  split; [|by vm_compute]. intros order.
  destruct (clean_unknown_ids_difference required_field [ann; bob; cy] "1, 7,2 ,, 4")
    as (Hfound & _ & Hraise & Hreturn).
  - done.
  - intros uid Hin.
    assert (Hsub : submitted "1, 7,2 ,, 4" = {[str 1; str 2; str 4; str 7]})
      by by vm_compute.
    rewrite Hsub in Hin.
    repeat (apply elem_of_union in Hin as [Hin|Hin]);
      apply elem_of_singleton in Hin as ->; eauto.
  - done.
  - eexists. split; [by apply Hfound|]. split; [exact Hraise|exact Hreturn].
Defined.

(** C2, at the failing input. With the users 1, 2 and 3 stored, the text
    ["1,2"] and a filter that returns [False] for user 2, [clean] leaves
    with an [AttributeError] for the attribute [gk], which is not a
    [ValidationError]. *)
Theorem clean_raises_AttributeError `{SetIteration} :
  clean filtered_field [ann; bob; cy] (PyStr "1,2") = Raise (AttributeError "gk") ∧
  ∀ message, clean filtered_field [ann; bob; cy] (PyStr "1,2")
             ≠ Raise (ValidationError message).
Proof.
  assert (Hclean : clean filtered_field [ann; bob; cy] (PyStr "1,2")
                   = Raise (AttributeError "gk")).
  { apply (clean_text_rejected filtered_field [ann; bob; cy] "1,2" [ann; bob] bob).
    - done.
    - by vm_compute.
    - apply list_elem_of_In. simpl. tauto.
    - reflexivity. }
  split; [done|]. intros message. by rewrite Hclean.
Qed.

(** C3, what the code does instead. Whenever the lookup succeeds and the
    filter returns [False] for one of the users found, [clean] raises the
    [AttributeError] of [r.gk]; no [ValidationError] listing the rejected
    keys is raised and no list is returned. *)
Theorem clean_rejection_raises_AttributeError `{SetIteration} self tbl s found r :
  s ≠ "" →
  User_objects_filter_pk__in tbl (elements (submitted s)) = Return found →
  r ∈ found → rejects self r = true →
  clean self tbl (PyStr s) = Raise (AttributeError "gk").
Proof. apply clean_text_rejected. Qed.

(** An instance: both users are found and the filter rejects the second. *)
Lemma clean_rejection_raises_AttributeError_witness :
  clean filtered_field [ann; bob] (PyStr "2, 1") = Raise (AttributeError "gk").
Proof.
  apply (clean_rejection_raises_AttributeError filtered_field [ann; bob] "2, 1"
           [ann; bob] bob).
  - done.
  - by vm_compute.
  - apply list_elem_of_In. simpl. tauto.
  - reflexivity.
Defined.

(** C10, refuted as stated. The empty list is falsy and a list: an optional
    field answers [''] for it, not the list; and a required field raises
    for the empty text instead of returning ['']. No set is iterated on
    the way. *)
Lemma clean_edge_cases_counterexample :
  (∀ order : SetIteration, ¬ clean_edge_cases optional_field [] (PyList [])) ∧
  (∀ order : SetIteration, ¬ clean_edge_cases required_field [] (PyStr "")).
Proof.
  split; intros order.
  - intros [_ Hlist]. specialize (Hlist eq_refl). discriminate Hlist.
  - intros [Hfalsy _]. specialize (Hfalsy eq_refl). discriminate Hfalsy.
Qed.

(** C10, amended. A falsy value that passes the inherited check (the field
    is not required, or the value is not one of the empty values) gives
    ['']; a non-empty list or tuple comes back unchanged whatever the table
    holds and whatever the filter answers, so neither is consulted. *)
Theorem clean_falsy_and_sequences `{SetIteration} self tbl value :
  (truthy value = false → EMPTY_VALUES value && required self = false →
     clean self tbl value = Return (PyStr "")) ∧
  (is_list_or_tuple value = true → truthy value = true →
     ∀ tbl' recipient_filter,
       clean (mkField (required self) recipient_filter) tbl' value = Return value).
Proof.
  split.
  - intros Hfalsy Hcheck. unfold clean, Field_clean. rewrite Hcheck. simpl.
    by rewrite Hfalsy.
  - intros Hseq Htruthy tbl' rf. unfold clean, Field_clean.
    assert (EMPTY_VALUES value = false) as ->.
    { destruct value as [| | |[|]|[|]]; done. }
    simpl. by rewrite Htruthy, Hseq.
Qed.

(** Instances: the empty text on an optional field, [False] on a required
    one, and a tuple holding a user that is not stored and that the filter
    would reject. *)
Lemma clean_falsy_and_sequences_witness :
  clean optional_field [ann] (PyStr "") = Return (PyStr "") ∧
  clean required_field [ann] (PyBool false) = Return (PyStr "") ∧
  clean filtered_field [] (PyTuple [bob]) = Return (PyTuple [bob]).
Proof.
  split; [|split].
  - destruct (clean_falsy_and_sequences optional_field [ann] (PyStr "")) as [H _].
    apply H; reflexivity.
  - destruct (clean_falsy_and_sequences required_field [ann] (PyBool false)) as [H _].
    apply H; reflexivity.
  - destruct (clean_falsy_and_sequences required_field [ann] (PyTuple [bob])) as [_ H].
    apply (H eq_refl eq_refl [] (Some not_bob)).
Defined.

Lemma join_nonempty sep x l : x ≠ "" → join sep (x :: l) ≠ "".
Proof. destruct x as [|c x]; [done|]. by destruct l. Qed.

Lemma str_no_comma z : all_chars (λ c, negb (Ascii.eqb c ",")) (str z) = true.
Proof.
  eapply all_chars_impl; [|apply str_chars].
  intros c Hc. by rewrite (is_int_char_not_comma c Hc).
Qed.

(** The IDs read back from the rendered text are the pk-strings rendered. *)
Lemma submitted_join users :
  users ≠ [] →
  submitted (join ", " ((λ user, str (pk user)) <$> users)) = pk_strings users.
Proof.
  destruct users as [|u us]; [done|]. intros _.
  unfold submitted. rewrite fmap_cons, split_join_comma.
  2:{ apply Forall_forall. intros y Hy.
      change (y ∈ (λ user, str (pk user)) <$> (u :: us)) in Hy.
      apply list_elem_of_fmap in Hy as (v & -> & _). apply str_no_comma. }
  apply set_eq. intros y. rewrite elem_of_strip_ids, elem_of_pk_strings. split.
  - intros (uid & Hin & -> & _). apply elem_of_list_to_set in Hin.
    apply elem_of_cons in Hin as [->|Hin].
    + exists u. split; [left|]. by rewrite strip_str.
    + apply list_elem_of_fmap in Hin as (t & -> & Hin).
      apply list_elem_of_fmap in Hin as (v & -> & Hin).
      exists v. split; [by right|]. by rewrite strip_leading_space, strip_str.
  - intros (v & Hin & ->). apply elem_of_cons in Hin as [->|Hin].
    + exists (str (pk u)). rewrite strip_str. split; [|split; [done|apply str_nonempty]].
      apply elem_of_list_to_set. left.
    + exists (String " " (str (pk v))). rewrite strip_leading_space, strip_str.
      split; [|split; [done|apply str_nonempty]].
      apply elem_of_list_to_set. right.
      apply list_elem_of_fmap. exists (str (pk v)). split; [done|].
      apply list_elem_of_fmap. by exists v.
Qed.

(** Rows of a table with distinct keys are told apart by their key. *)
Lemma same_pk_same_row (tbl : list User) u v :
  NoDup (pk <$> tbl) → u ∈ tbl → v ∈ tbl → pk u = pk v → u = v.
Proof.
  induction tbl as [|w tbl IH]; [by intros _ ?%elem_of_nil|].
  rewrite fmap_cons. intros [Hw Hnd]%NoDup_cons Hu Hv Hpk.
  apply elem_of_cons in Hu as [->|Hu]; apply elem_of_cons in Hv as [->|Hv].
  - done.
  - destruct Hw. rewrite Hpk. apply list_elem_of_fmap. by exists v.
  - destruct Hw. rewrite <- Hpk. apply list_elem_of_fmap. by exists u.
  - by apply IH.
Qed.

(** C9. For a non-empty list of users with distinct keys, all of them rows
    of a table whose keys are distinct, the widget hands the inherited
    renderer the pk-strings joined with [", "], and [clean] on a field
    without filter turns that text back into a list holding exactly those
    users (each once, in table order). *)
Theorem render_clean_round_trip `{SetIteration} self tbl users name attrs :
  users ≠ [] →
  NoDup (pk <$> users) →
  (∀ u, u ∈ users → u ∈ tbl) →
  NoDup (pk <$> tbl) →
  _recipient_filter self = None →
  let text := join ", " ((λ user, str (pk user)) <$> users) in
  render name (PyList users) attrs = HiddenInput_render name (PyStr text) attrs ∧
  ∃ cleaned, clean self tbl (PyStr text) = Return (PyList cleaned) ∧ cleaned ≡ₚ users.
Proof.
  intros Hne Hnd Hin Htbl Hnofilter text. split; [done|].
  pose proof (submitted_join users Hne) as Hsub. fold text in Hsub.
  set (found := filter (λ u, str (pk u) ∈ pk_strings users) tbl).
  assert (Hfound : User_objects_filter_pk__in tbl (elements (submitted text))
                   = Return found).
  { rewrite Hsub. apply filter_pk__in_canonical.
    intros uid (u & Hu & ->)%elem_of_pk_strings. exists (pk u). split; [done|].
    right. apply list_elem_of_fmap. exists u. split; [done|by apply Hin]. }
  assert (Hmem : ∀ u, u ∈ found ↔ u ∈ users).
  { intros u. unfold found. rewrite list_elem_of_filter, elem_of_pk_strings. split.
    - intros [(v & Hv & Hpk%str_inj) Hu].
      by rewrite (same_pk_same_row tbl u v Htbl Hu (Hin v Hv) Hpk).
    - intros Hu. split; [by exists u|by apply Hin]. }
  exists found. split.
  - apply clean_text_Return.
    + destruct users as [|u us]; [done|]. apply join_nonempty, str_nonempty.
    + exact Hfound.
    + intros u _. unfold rejects. by rewrite Hnofilter.
    + rewrite Hsub.
      unfold symmetric_difference. apply set_eq. intros y.
      rewrite elem_of_union, !elem_of_difference, !elem_of_pk_strings.
      split; [|by intros ?%not_elem_of_empty].
      intros [[(u & Hu & ->) Hno]|[(u & Hu & ->) Hno]]; destruct Hno; exists u;
        (split; [by apply Hmem|done]).
  - apply NoDup_Permutation; [| |done].
    + apply NoDup_filter. by apply NoDup_fmap_1 in Htbl.
    + by apply NoDup_fmap_1 in Hnd.
Qed.

(** An instance: two of three stored users, rendered out of table order. *)
Lemma render_clean_round_trip_witness :
  render "recipient" (PyList [cy; ann]) None
  = HiddenInput_render "recipient" (PyStr "3, 1") None ∧
  ∃ cleaned, clean required_field [ann; bob; cy] (PyStr "3, 1") = Return (PyList cleaned)
             ∧ cleaned ≡ₚ [cy; ann].
Proof.
  apply (render_clean_round_trip required_field [ann; bob; cy] [cy; ann] "recipient" None).
  - done.
  - compute_done.
  - intros u Hu. apply list_elem_of_In in Hu. apply list_elem_of_In. simpl in *. tauto.
  - compute_done.
  - reflexivity.
Defined.

End FieldClaims.

(** ** The views *)

Section ViewFacts.
Import views.

Lemma mark_flag m u t :
  (mark m u t).2 = sender_is m u || recipient_is m u.
Proof.
  unfold mark. destruct (sender_is m u) eqn:Hs; simpl.
  - change (recipient_is (set_sender_deleted_at m t) u) with (recipient_is m u).
    by destruct (recipient_is m u).
  - by destruct (recipient_is m u).
Qed.

Lemma mark_fields m u t :
  same_but_markers m (mark m u t).1 ∧
  sender_deleted_at (mark m u t).1 = (if sender_is m u then t else sender_deleted_at m) ∧
  recipient_deleted_at (mark m u t).1
  = (if recipient_is m u then t else recipient_deleted_at m).
Proof.
  unfold mark, same_but_markers. destruct (sender_is m u) eqn:Hs; simpl.
  - change (recipient_is (set_sender_deleted_at m t) u) with (recipient_is m u).
    by destruct (recipient_is m u).
  - by destruct (recipient_is m u).
Qed.

Lemma mark_unmarked m u t :
  sender_is m u = false → recipient_is m u = false → mark m u t = (m, false).
Proof. intros Hs Hr. unfold mark. by rewrite Hs, Hr. Qed.

(** [delete], evaluated on a logged-in request for a stored message. *)
Lemma delete_stored site globals now message_id success_url request w m :
  is_authenticated (user request) = true →
  Message_objects w !! message_id = Some m →
  delete site globals now message_id success_url request w =
    let m' := (mark m (user request) (Some now)).1 in
    if sender_is m (user request) || recipient_is m (user request)
    then (Return (HttpResponseRedirect (next_url site request success_url)),
          mkWorld (<[id m' := m']> (Message_objects w)) (User_objects w)
                  (flash w ++ ["Message successfully deleted."])
                  (if notification globals
                   then notices w ++ [(user request, "messages_deleted", m')]
                   else notices w))
    else (Raise Http404, w).
Proof.
  intros Hauth Hm. unfold delete, login_required. rewrite Hauth.
  unfold delete_body, mbind, M_bind, bindM, get_object_or_404. rewrite Hm.
  pose proof (mark_flag m (user request) (Some now)) as Hflag.
  destruct (mark m (user request) (Some now)) as [m' deleted]. simpl in Hflag |- *.
  rewrite <- Hflag. destruct deleted; [|done]. simpl.
  by destruct (notification globals).
Qed.

(** [undelete], likewise. *)
Lemma undelete_stored site globals message_id success_url request w m :
  is_authenticated (user request) = true →
  Message_objects w !! message_id = Some m →
  undelete site globals message_id success_url request w =
    let m' := (mark m (user request) None).1 in
    if sender_is m (user request) || recipient_is m (user request)
    then (Return (HttpResponseRedirect (next_url site request success_url)),
          mkWorld (<[id m' := m']> (Message_objects w)) (User_objects w)
                  (flash w ++ ["Message successfully recovered."])
                  (if notification globals
                   then notices w ++ [(user request, "messages_recovered", m')]
                   else notices w))
    else (Raise Http404, w).
Proof.
  intros Hauth Hm. unfold undelete, login_required. rewrite Hauth.
  unfold undelete_body, mbind, M_bind, bindM, get_object_or_404. rewrite Hm.
  pose proof (mark_flag m (user request) None) as Hflag.
  destruct (mark m (user request) None) as [m' deleted]. simpl in Hflag |- *.
  rewrite <- Hflag. destruct deleted; [|done]. simpl.
  by destruct (notification globals).
Qed.

(** [view], likewise. *)
Lemma view_stored site now message_id template_name request w m :
  is_authenticated (user request) = true →
  Message_objects w !! message_id = Some m →
  view site now message_id template_name request w =
    if negb (sender_is m (user request)) && negb (recipient_is m (user request))
    then (Raise Http404, w)
    else if bool_decide (read_at m = None) && recipient_is m (user request)
    then let m' := set_read_at m (Some now) in
         (Return (render_to_response template_name (ctx_message m') request),
          mkWorld (<[id m' := m']> (Message_objects w)) (User_objects w)
                  (flash w) (notices w))
    else (Return (render_to_response template_name (ctx_message m) request), w).
Proof.
  intros Hauth Hm. unfold view, login_required. rewrite Hauth.
  unfold view_body, mbind, M_bind, bindM, get_object_or_404. rewrite Hm.
  destruct (negb (sender_is m (user request)) && negb (recipient_is m (user request)));
    [done|].
  by destruct (bool_decide (read_at m = None) && recipient_is m (user request)).
Qed.

(** A request that is not logged in is answered by the decorator. *)
Lemma anonymous_redirected site (body : HttpRequest → M HttpResponse) request w :
  is_authenticated (user request) = false →
  login_required site body request w
  = (Return (HttpResponseRedirect (login_redirect site request)), w).
Proof. intros H. unfold login_required. by rewrite H. Qed.

(** A missing message is a 404 that changes nothing, when its key fits
    the key column; the error of the driver otherwise. *)
Lemma get_missing (message_id : Z) w :
  Message_objects w !! message_id = None →
  get_object_or_404 message_id w
  = (Raise (if fits message_id then Http404 else OverflowError), w).
Proof. intros H. unfold get_object_or_404. by rewrite H. Qed.

Lemma delete_missing site globals now message_id success_url request w :
  is_authenticated (user request) = true →
  Message_objects w !! message_id = None →
  delete site globals now message_id success_url request w
  = (Raise (if fits message_id then Http404 else OverflowError), w).
Proof.
  intros Hauth Hm. unfold delete, login_required. rewrite Hauth.
  unfold delete_body, mbind, M_bind, bindM. by rewrite (get_missing _ _ Hm).
Qed.

Lemma undelete_missing site globals message_id success_url request w :
  is_authenticated (user request) = true →
  Message_objects w !! message_id = None →
  undelete site globals message_id success_url request w
  = (Raise (if fits message_id then Http404 else OverflowError), w).
Proof.
  intros Hauth Hm. unfold undelete, login_required. rewrite Hauth.
  unfold undelete_body, mbind, M_bind, bindM. by rewrite (get_missing _ _ Hm).
Qed.

(** Saving a marked copy of the stored message touches that row only, and
    only its two markers. *)
Lemma marked_frame (tbl : gmap Z Message) message_id m u t k :
  keyed tbl → tbl !! message_id = Some m →
  let m' := (mark m u t).1 in
  (k ≠ message_id → <[id m' := m']> tbl !! k = tbl !! k) ∧
  (∀ m0, tbl !! k = Some m0 →
     ∃ m1, <[id m' := m']> tbl !! k = Some m1 ∧ same_but_markers m0 m1) ∧
  (tbl !! k = None → <[id m' := m']> tbl !! k = None).
Proof.
  intros Hkeyed Hm m'.
  destruct (mark_fields m u t) as (Hsame & _). fold m' in Hsame.
  assert (Hid : id m' = message_id).
  { destruct Hsame as (-> & _). by apply Hkeyed. }
  rewrite Hid. split; [|split].
  - intros Hk. by rewrite lookup_insert_ne.
  - intros m0 Hm0. destruct (decide (k = message_id)) as [->|Hk].
    + exists m'. rewrite lookup_insert_eq. split; [done|]. congruence.
    + exists m0. rewrite lookup_insert_ne by done. split; [done|].
      by repeat split.
  - intros Hnone. rewrite lookup_insert_ne; [done|]. congruence.
Qed.

End ViewFacts.

(** ** The claims about [views.py] *)

Section ViewClaims.
Import views.

(** C4, refuted as stated: a request that is not logged in comes from
    neither the sender nor the recipient, and is answered with the redirect
    to the login page, not with [Http404]. *)
Lemma delete_anonymous_counterexample :
  ¬ delete_marks_or_404 example_site without_notification 500 10 None
      (request_of AnonymousUser) example_world hello.
Proof. unfold delete_marks_or_404. vm_compute. intros [H _]. discriminate H. Qed.

(** C4, amended: for every request of a logged-in user and every stored
    message, [delete] sets the marker(s) matching the user's role to the
    current time and saves the message, which stays in the table, exactly
    when the user is its sender or its recipient; otherwise it raises
    [Http404] and nothing is saved. *)
Theorem delete_marks_or_404_authenticated site globals now message_id success_url
    request w m :
  is_authenticated (user request) = true →
  Message_objects w !! message_id = Some m →
  id m = message_id →
  delete_marks_or_404 site globals now message_id success_url request w m.
Proof.
  intros Hauth Hm Hid. unfold delete_marks_or_404.
  rewrite (delete_stored _ _ _ _ _ _ _ m Hauth Hm).
  destruct (mark_fields m (user request) (Some now)) as ((Hid' & _) & Hs & Hr).
  destruct (sender_is m (user request) || recipient_is m (user request)) eqn:Hrole;
    cbn zeta; [|done].
  split; [done|]. eexists. split; [|by split].
  cbn [Message_objects]. rewrite Hid', Hid. apply lookup_insert_eq.
Qed.

(** Instances: the recipient deletes; a third user is refused. *)
Lemma delete_marks_or_404_authenticated_witness :
  delete_marks_or_404 example_site with_notification 500 10 None
    (request_of (Authenticated bob)) example_world hello ∧
  delete_marks_or_404 example_site with_notification 500 10 None
    (request_of (Authenticated cy)) example_world hello.
Proof.
  split; by apply delete_marks_or_404_authenticated.
Defined.

(** C5, refuted as stated: the request that is not logged in again gets the
    login redirect instead of [Http404]. *)
Lemma view_anonymous_counterexample :
  ¬ view_reads_or_404 example_site 500 10 "django_messages/view.html"
      (request_of AnonymousUser) example_world hello.
Proof. unfold view_reads_or_404. vm_compute. intros [H _]. discriminate H. Qed.

(** C5, amended: for every request of a logged-in user and every stored
    message, [view] sets [read_at] to the current time and saves exactly
    when the user is the recipient and [read_at] is [None]; any other access
    by the sender or the recipient leaves the world as it was; and a user
    who is neither gets [Http404] with nothing modified. *)
Theorem view_reads_or_404_authenticated site now message_id template_name request w m :
  is_authenticated (user request) = true →
  Message_objects w !! message_id = Some m →
  id m = message_id →
  view_reads_or_404 site now message_id template_name request w m.
Proof.
  intros Hauth Hm Hid. unfold view_reads_or_404.
  rewrite (view_stored _ _ _ _ _ _ m Hauth Hm).
  destruct (negb (sender_is m (user request)) && negb (recipient_is m (user request)));
    [done|].
  rewrite (andb_comm (bool_decide _)).
  destruct (recipient_is m (user request) && bool_decide (read_at m = None));
    cbn zeta; [|done].
  cbn [Message_objects User_objects]. change (id (set_read_at m (Some now))) with (id m).
  by rewrite Hid.
Qed.

(** Instances: the recipient opens the unread message; the sender looks at it. *)
Lemma view_reads_or_404_authenticated_witness :
  view_reads_or_404 example_site 500 10 "django_messages/view.html"
    (request_of (Authenticated bob)) example_world hello ∧
  view_reads_or_404 example_site 500 10 "django_messages/view.html"
    (request_of (Authenticated ann)) example_world hello.
Proof.
  split; by apply view_reads_or_404_authenticated.
Defined.

(** C7. A call of [delete] or [undelete] that returns a response leaves the
    users alone and, in the table of messages (whose rows carry their own
    key), changes at most the two soft-delete markers of the targeted
    message: every other row is what it was, no row appears or disappears,
    and in every row all fields but the two markers are what they were. *)
Theorem delete_undelete_frame `{SetIteration} site globals now message_id success_url
    request w c response w' :
  c = call_delete message_id success_url ∨ c = call_undelete message_id success_url →
  keyed (Message_objects w) →
  run site globals now c request w = (Return response, w') →
  User_objects w' = User_objects w ∧
  ∀ k, (k ≠ message_id → Message_objects w' !! k = Message_objects w !! k) ∧
       (∀ m0, Message_objects w !! k = Some m0 →
          ∃ m1, Message_objects w' !! k = Some m1 ∧ same_but_markers m0 m1) ∧
       (Message_objects w !! k = None → Message_objects w' !! k = None).
Proof.
  intros Hc Hkeyed Hrun.
  assert (Hsame : ∀ m0 : Message, same_but_markers m0 m0) by by repeat split.
  destruct (is_authenticated (user request)) eqn:Hauth.
  - destruct (Message_objects w !! message_id) as [m|] eqn:Hm.
    + destruct Hc as [-> | ->]; simpl in Hrun.
      * rewrite (delete_stored _ _ _ _ _ _ _ m Hauth Hm) in Hrun.
        destruct (sender_is m (user request) || recipient_is m (user request));
          cbn zeta in Hrun; [|discriminate Hrun].
        injection Hrun as _ <-. split; [done|]. intros k.
        by apply marked_frame.
      * rewrite (undelete_stored _ _ _ _ _ _ m Hauth Hm) in Hrun.
        destruct (sender_is m (user request) || recipient_is m (user request));
          cbn zeta in Hrun; [|discriminate Hrun].
        injection Hrun as _ <-. split; [done|]. intros k.
        by apply marked_frame.
    + destruct Hc as [-> | ->]; simpl in Hrun.
      * rewrite (delete_missing _ _ _ _ _ _ _ Hauth Hm) in Hrun. discriminate Hrun.
      * rewrite (undelete_missing _ _ _ _ _ _ Hauth Hm) in Hrun. discriminate Hrun.
  - assert (w' = w) as ->.
    { destruct Hc as [-> | ->]; simpl in Hrun; unfold delete, undelete in Hrun;
        rewrite anonymous_redirected in Hrun by done; congruence. }
    split; [done|]. intros k. split; [done|]. split; [|done]. eauto.
Qed.

(** An instance: the sender deletes the one stored message. *)
Lemma delete_undelete_frame_witness :
  let w' := (delete example_site with_notification 500 10 None
               (request_of (Authenticated ann)) example_world).2 in
  User_objects w' = [ann; bob; cy] ∧
  Message_objects w' !! 11 = None ∧
  ∃ m1, Message_objects w' !! 10 = Some m1 ∧ same_but_markers hello m1.
Proof.
  intros w'.
  destruct (delete_undelete_frame example_site with_notification 500 10 None
              (request_of (Authenticated ann)) example_world
              (call_delete 10 None) (HttpResponseRedirect "/messages_inbox/") w')
    as [Husers Hframe].
  - by left.
  - intros j m Hj. unfold example_world in Hj. cbn [Message_objects] in Hj.
    apply lookup_singleton_Some in Hj as [<- <-]. reflexivity.
  - reflexivity.
  - destruct (Hframe 10) as (_ & Hsame & _). destruct (Hframe 11) as (_ & _ & Hnone).
    split; [exact Husers|]. split; [by apply Hnone|]. by apply Hsame.
Defined.

(** C8. The one module-level name a view looks at is [notification], and
    its value decides nothing but whether a notification is sent: for the
    same site, clock, call, request and world, two runs under any two
    bindings of the module-level state give the same response (or the same
    exception), the same tables and the same one-time notices; under the
    same binding the whole resulting world is the same. *)
Theorem views_independent_of_module_state `{SetIteration} site now c request w
    globals1 globals2 :
  let r1 := run site globals1 now c request w in
  let r2 := run site globals2 now c request w in
  r1.1 = r2.1 ∧
  Message_objects r1.2 = Message_objects r2.2 ∧
  User_objects r1.2 = User_objects r2.2 ∧
  flash r1.2 = flash r2.2 ∧
  (notification globals1 = notification globals2 → r1 = r2).
Proof.
  destruct c as [t|t|t|r fc t s rf|i fc t s rf|i s|i s|i t]; cbn zeta;
    try (simpl; by repeat split).
  - simpl. destruct (is_authenticated (user request)) eqn:Hauth.
    + destruct (Message_objects w !! i) as [m|] eqn:Hm.
      * rewrite !(delete_stored _ _ _ _ _ _ _ m Hauth Hm).
        destruct (sender_is m (user request) || recipient_is m (user request));
          cbn zeta; [|done].
        repeat split. by intros ->.
      * by rewrite !(delete_missing _ _ _ _ _ _ _ Hauth Hm).
    + unfold delete. by rewrite !anonymous_redirected by done.
  - simpl. destruct (is_authenticated (user request)) eqn:Hauth.
    + destruct (Message_objects w !! i) as [m|] eqn:Hm.
      * rewrite !(undelete_stored _ _ _ _ _ _ m Hauth Hm).
        destruct (sender_is m (user request) || recipient_is m (user request));
          cbn zeta; [|done].
        repeat split. by intros ->.
      * by rewrite !(undelete_missing _ _ _ _ _ _ Hauth Hm).
    + unfold undelete. by rewrite !anonymous_redirected by done.
Qed.

Lemma listing_views_unchanged `{SetIteration} site globals now c request w :
  name_of c = Inbox ∨ name_of c = Outbox ∨ name_of c = Trash →
  (run site globals now c request w).2 = w.
Proof.
  intros Hc.
  destruct c; simpl in Hc; try (destruct Hc as [?|[?|?]]; discriminate); simpl;
    unfold inbox, outbox, trash, login_required;
    by destruct (is_authenticated (user request)).
Qed.

(** C6, refuted as stated: the module defines eight views, not six, and
    [inbox] addresses no message and never changes the stored messages. *)
Lemma six_views_counterexample :
  (∀ order : SetIteration, ¬ six_views_each_saving) ∧
  (∀ order : SetIteration, ¬ checks_permission Inbox) ∧
  (∀ order : SetIteration, ¬ saves Inbox).
Proof.
  split; [|split]; intros order.
  - intros [Hlen _]. discriminate Hlen.
  - intros [(c & Hc & Hid) _]. destruct c; try discriminate Hc. by destruct Hid.
  - intros (site & globals & now & c & request & w & Hc & Hne).
    apply Hne. by rewrite listing_views_unchanged by auto.
Qed.

(** C6, amended. The module defines eight views. [reply], [delete],
    [undelete] and [view] check that the logged-in user is the sender or the
    recipient of the addressed message; [inbox], [outbox], [trash] and
    [compose] address no message. [inbox], [outbox] and [trash] never change
    the stored messages; each of the other five does on some call. *)
Theorem eight_views_by_role `{SetIteration} :
  length view_names = 8%nat ∧
  (∀ v, v ∈ view_names) ∧
  (∀ v, v ∈ [Reply; Delete; Undelete; View] → checks_permission v) ∧
  (∀ v, v ∈ [Inbox; Outbox; Trash; Compose] → ¬ checks_permission v) ∧
  (∀ v, v ∈ [Compose; Reply; Delete; Undelete; View] → saves v) ∧
  (∀ v, v ∈ [Inbox; Outbox; Trash] → ¬ saves v).
Proof.
  split; [done|]. split; [intros []; apply list_elem_of_In; simpl; tauto|].
  split; [|split; [|split]].
  - intros v Hv. split.
    + repeat (apply elem_of_cons in Hv as [->|Hv]); [| | | |by apply elem_of_nil in Hv].
      * by exists (call_reply 0 accepting_form "" None None).
      * by exists (call_delete 0 None).
      * by exists (call_undelete 0 None).
      * by exists (call_view 0 "").
    + intros site globals now c request w message_id m Hc Hid Hauth Hm Hs Hr.
      destruct c; simpl in Hid; try discriminate Hid; injection Hid as ->; simpl.
      * unfold reply, login_required. rewrite Hauth.
        unfold reply_body, mbind, M_bind, bindM, get_object_or_404.
        by rewrite Hm, Hs, Hr.
      * rewrite (delete_stored _ _ _ _ _ _ _ m Hauth Hm). by rewrite Hs, Hr.
      * rewrite (undelete_stored _ _ _ _ _ _ m Hauth Hm). by rewrite Hs, Hr.
      * rewrite (view_stored _ _ _ _ _ _ m Hauth Hm). by rewrite Hs, Hr.
  - intros v Hv [(c & Hc & Hid) _].
    repeat (apply elem_of_cons in Hv as [->|Hv]); [| | | |by apply elem_of_nil in Hv];
      destruct c; try discriminate Hc; by destruct Hid.
  - intros v Hv.
    assert (Hne : ∀ tbl : gmap Z Message, tbl !! 10 ≠ Some hello ∨ tbl !! 11 ≠ None →
                  tbl ≠ Message_objects example_world).
    { intros tbl Hrow ->. by destruct Hrow as [Hrow|Hrow]; apply Hrow. }
    repeat (apply elem_of_cons in Hv as [->|Hv]); [| | | | |by apply elem_of_nil in Hv].
    + exists example_site, without_notification, 500,
        (call_compose None accepting_form "" None None),
        (post_of (Authenticated ann)), example_world.
      split; [done|]. apply Hne. right. by vm_compute.
    + exists example_site, without_notification, 500,
        (call_reply 10 accepting_form "" None None),
        (post_of (Authenticated bob)), example_world.
      split; [done|]. apply Hne. right. by vm_compute.
    + exists example_site, without_notification, 500, (call_delete 10 None),
        (request_of (Authenticated bob)), example_world.
      split; [done|]. apply Hne. left. by vm_compute.
    + exists example_site, without_notification, 500, (call_undelete 10 None),
        (request_of (Authenticated bob)),
        (mkWorld {[10 := set_recipient_deleted_at hello (Some 400)]} [ann; bob; cy] [] []).
      split; [done|]. intros Heq.
      apply (f_equal (λ tbl : gmap Z Message, tbl !! 10)) in Heq.
      by vm_compute in Heq.
    + exists example_site, without_notification, 500, (call_view 10 ""),
        (request_of (Authenticated bob)), example_world.
      split; [done|]. apply Hne. left. by vm_compute.
  - intros v Hv (site & globals & now & c & request & w & Hc & Hne).
    apply Hne. rewrite listing_views_unchanged; [done|]. rewrite Hc.
    repeat (apply elem_of_cons in Hv as [->|Hv]); [| | |by apply elem_of_nil in Hv]; auto.
Qed.

(** What does hold of C2 on the side of the views: the six views that take
    no form raise nothing but [Http404], as long as the key they are asked
    for fits the key column. *)
Lemma formless_views_raise_only_Http404 `{SetIteration} site globals now c request w e :
  name_of c ≠ Compose → name_of c ≠ Reply →
  (∀ message_id, message_id_of c = Some message_id → fits message_id = true) →
  (run site globals now c request w).1 = Raise e → e = Http404.
Proof.
  intros Hcompose Hreply Hfits.
  destruct c as [t|t|t|r fc t s rf|i fc t s rf|i s|i s|i t]; try done; simpl;
    destruct (is_authenticated (user request)) eqn:Hauth;
    try (unfold inbox, outbox, trash, delete, undelete, view, login_required;
         rewrite Hauth; simpl; discriminate).
  - destruct (Message_objects w !! i) as [m|] eqn:Hm.
    + rewrite (delete_stored _ _ _ _ _ _ _ m Hauth Hm).
      destruct (sender_is m (user request) || recipient_is m (user request));
        cbn zeta; simpl; congruence.
    + rewrite (delete_missing _ _ _ _ _ _ _ Hauth Hm), (Hfits i eq_refl). simpl. congruence.
  - destruct (Message_objects w !! i) as [m|] eqn:Hm.
    + rewrite (undelete_stored _ _ _ _ _ _ m Hauth Hm).
      destruct (sender_is m (user request) || recipient_is m (user request));
        cbn zeta; simpl; congruence.
    + rewrite (undelete_missing _ _ _ _ _ _ Hauth Hm), (Hfits i eq_refl). simpl. congruence.
  - destruct (Message_objects w !! i) as [m|] eqn:Hm.
    + rewrite (view_stored _ _ _ _ _ _ m Hauth Hm).
      destruct (negb (sender_is m (user request)) && negb (recipient_is m (user request)));
        [simpl; congruence|].
      destruct (bool_decide (read_at m = None) && recipient_is m (user request));
        simpl; discriminate.
    + unfold view, login_required. rewrite Hauth.
      unfold view_body, mbind, M_bind, bindM.
      rewrite (get_missing _ _ Hm), (Hfits i eq_refl). simpl. congruence.
Qed.

(** And beyond it they raise the error of the driver. *)
Lemma view_raises_OverflowError :
  (view example_site 500 (2 ^ 63) "django_messages/view.html"
     (request_of (Authenticated ann)) example_world).1
  = Raise OverflowError.
Proof. reflexivity. Qed.

(** And what does not: [compose] only catches the [ValidationError] of the
    recipient field, so the [AttributeError] of [r.gk] leaves the view. *)
Lemma compose_propagates_AttributeError `{SetIteration} :
  (compose example_site None rejecting_form "django_messages/compose.html" None
     (Some not_bob) (mkRequest (Authenticated ann) "POST" ∅ {["recipient" := "1,2"]})
     example_world).1
  = Raise (AttributeError "gk").
Proof.
  assert (Hclean : fields.clean (fields.mkField true (Some not_bob)) [ann; bob; cy] (PyStr "1,2")
                   = Raise (AttributeError "gk")).
  { apply (clean_text_rejected filtered_field [ann; bob; cy] "1,2" [ann; bob] bob).
    - done.
    - by vm_compute.
    - apply list_elem_of_In. simpl. tauto.
    - reflexivity. }
  unfold compose, login_required, compose_body, except_ValidationError, lift,
    mbind, M_bind, bindM.
  cbn -[fields.clean].
  assert (getitem ({["recipient" := "1,2"]} : gmap string string) "recipient"
          = Return "1,2") as -> by by vm_compute.
  cbn -[fields.clean]. by rewrite Hclean.
Qed.

End ViewClaims.

(** * Further properties *)

(** ** More about [clean] *)

Section MoreOnClean.
Import fields.

Lemma submitted_empty_text : submitted "" = ∅.
Proof. by vm_compute. Qed.

(** A loop that comes to its end has rejected nobody and changed nothing. *)
Lemma filter_loop_Return rf fuel i users invalid users' invalid' :
  filter_loop fuel rf i users invalid = Return (users', invalid') →
  users' = users ∧ invalid' = invalid ∧
  ∀ j r, (i ≤ j < i + fuel)%nat → users !! j = Some r → is_False (rf r) = false.
Proof.
  revert i. induction fuel as [|fuel IH]; intros i; simpl.
  - intros [= <- <-]. split; [done|]. split; [done|]. intros j r Hj. lia.
  - destruct (users !! i) as [r0|] eqn:Hr0.
    + destruct (is_False (rf r0)) eqn:Hrej; [discriminate|].
      intros (-> & -> & Hacc)%IH. split; [done|]. split; [done|].
      intros j r Hj Hr. destruct (decide (j = i)) as [->|Hne].
      * congruence.
      * apply (Hacc j r); [lia|done].
    + intros [= <- <-]. split; [done|]. split; [done|].
      intros j r Hj Hr. apply lookup_ge_None in Hr0. apply lookup_lt_Some in Hr. lia.
Qed.

Lemma symmetric_difference_empty (a b : gset string) : a ^^ b = ∅ → a = b.
Proof.
  unfold symmetric_difference. intros H. apply set_eq. intros x.
  assert (Hx : x ∉ (a ∖ b) ∪ (b ∖ a)) by (rewrite H; apply not_elem_of_empty).
  rewrite elem_of_union, !elem_of_difference in Hx.
  destruct (decide (x ∈ a)), (decide (x ∈ b)); tauto.
Qed.

(** What a returned list tells about the run of [clean] that returned it. *)
Lemma clean_Return_inv `{SetIteration} self tbl s cleaned :
  clean self tbl (PyStr s) = Return (PyList cleaned) →
  s ≠ "" ∧
  User_objects_filter_pk__in tbl (elements (submitted s)) = Return cleaned ∧
  submitted s = pk_strings cleaned ∧
  ∀ u, u ∈ cleaned → rejects self u = false.
Proof.
  intros Hclean.
  assert (Hs : s ≠ "").
  { intros ->. unfold clean, Field_clean in Hclean. simpl in Hclean.
    by destruct (required self). }
  split; [done|].
  pose proof (clean_text_outcome self tbl s Hs) as Hout.
  destruct (User_objects_filter_pk__in tbl (elements (submitted s))) as [found|e].
  - destruct (existsb (rejects self) found) eqn:Hrej; [congruence|].
    case_bool_decide as Hu.
    + rewrite Hclean in Hout. injection Hout as ->. split; [done|].
      split; [by apply symmetric_difference_empty|]. by apply existsb_rejects_false.
    + destruct Hout as (named & _ & Hout). congruence.
  - destruct e; try (destruct Hout as (a & _ & _ & Hout)); congruence.
Qed.

Lemma filter_ext_elem {A} (P Q : A → Prop) `{∀ x, Decision (P x)} `{∀ x, Decision (Q x)}
    (l : list A) :
  (∀ x, x ∈ l → (P x ↔ Q x)) → filter P l = filter Q l.
Proof.
  induction l as [|x l IH]; intros HPQ; [done|].
  rewrite !filter_cons.
  destruct (decide (P x)) as [HP|HP], (decide (Q x)) as [HQ|HQ].
  - f_equal. apply IH. intros y Hy. apply HPQ. by right.
  - destruct HQ. apply HPQ; [left|done].
  - destruct HP. apply HPQ; [left|done].
  - apply IH. intros y Hy. apply HPQ. by right.
Qed.

Lemma elem_of_submitted s uid :
  uid ∈ submitted s ↔ uid ≠ "" ∧ uid ∈ strip <$> split "," s.
Proof.
  unfold submitted. rewrite elem_of_strip_ids, list_elem_of_fmap. split.
  - intros (raw & Hraw%elem_of_list_to_set & -> & Hne). split; [done|]. by exists raw.
  - intros (Hne & raw & -> & Hraw). exists raw. by rewrite elem_of_list_to_set.
Qed.



Lemma split_blank s :
  all_chars (λ c, isspace c || Ascii.eqb c ",") s = true →
  Forall (λ w, all_chars isspace w = true) (split "," s).
Proof.
  induction s as [|c s IH]; simpl.
  - intros _. by repeat constructor.
  - intros [Hc Hs]%andb_true_iff. specialize (IH Hs).
    destruct (Ascii.eqb c ",") eqn:Hcomma.
    + by constructor.
    + rewrite orb_false_r in Hc.
      destruct (split "," s) as [|w ws]; [by repeat constructor; simpl; rewrite Hc|].
      inversion IH as [|? ? Hw Hws]; subst. constructor; [|done].
      simpl. by rewrite Hc, Hw.
Qed.

Lemma strip_all_space w : all_chars isspace w = true → strip w = "".
Proof.
  intros H. unfold strip.
  assert (lstrip w = "") as ->; [|done].
  induction w as [|c w IH]; simpl in *; [done|].
  apply andb_true_iff in H as [-> Hw]. by apply IH.
Qed.

Lemma filter_pk__in_nothing tbl :
  User_objects_filter_pk__in tbl (elements (∅ : gset string)) = Return [].
Proof.
  rewrite elements_empty. unfold User_objects_filter_pk__in. simpl. f_equal.
  induction tbl as [|u tbl IH]; [done|].
  rewrite filter_cons_False; [done|]. apply not_elem_of_nil.
Qed.

(** X2. A non-empty text made of nothing but commas and white space names
    nobody: [clean] returns the empty list for it, also on a required field
    (the inherited check only sees that the text is not empty). *)
Theorem clean_blank_text `{SetIteration} self tbl s :
  s ≠ "" →
  all_chars (λ c, isspace c || Ascii.eqb c ",") s = true →
  clean self tbl (PyStr s) = Return (PyList []).
Proof.
  intros Hs Hblank.
  assert (Hsub : submitted s = ∅).
  { apply set_eq. intros uid. rewrite elem_of_submitted, list_elem_of_fmap.
    split; [|by intros ?%not_elem_of_empty].
    intros (Hne & raw & -> & Hraw). destruct Hne. apply strip_all_space.
    pose proof (split_blank s Hblank) as Hall.
    rewrite Forall_forall in Hall. by apply Hall. }
  apply clean_text_Return; [done| |by intros u ?%elem_of_nil|].
  - rewrite Hsub. apply filter_pk__in_nothing.
  - rewrite Hsub. by vm_compute.
Qed.

(** An instance: commas and blanks on a required field. *)
Lemma clean_blank_text_witness :
  clean required_field [ann; bob] (PyStr " , ,") = Return (PyList []).
Proof. by apply (clean_blank_text required_field [ann; bob] " , ,"). Defined.

(** X3. When [clean] returns a list for a text, the list is exactly the rows
    of the table whose key, as [str] writes it, is among the submitted IDs,
    in table order; every submitted ID is the key of one of them (so an ID
    written any other way, or naming nobody, is never accepted); and the
    filter has rejected none of them. *)
Theorem clean_returned_users `{SetIteration} self tbl s cleaned :
  clean self tbl (PyStr s) = Return (PyList cleaned) →
  cleaned = filter (λ u, str (pk u) ∈ submitted s) tbl ∧
  (∀ uid, uid ∈ submitted s ↔ ∃ u, u ∈ cleaned ∧ uid = str (pk u)) ∧
  (∀ u, u ∈ cleaned → rejects self u = false).
Proof.
  intros (Hs & Hfound & Hsub & Hacc)%clean_Return_inv.
  split; [|split; [|done]].
  - unfold User_objects_filter_pk__in in Hfound.
    destruct (for_each int (elements (submitted s))) as [keys|e]; [|discriminate].
    simpl in Hfound. destruct (forallb _ keys); [|discriminate].
    injection Hfound as Hfound.
    rewrite <- Hfound at 1. apply filter_ext_elem. intros u Hu. split.
    + intros Hkey. rewrite Hsub. apply elem_of_pk_strings. exists u. split; [|done].
      rewrite <- Hfound. by apply list_elem_of_filter.
    + rewrite Hsub at 1. intros (v & Hv & Hpk%str_inj)%elem_of_pk_strings.
      rewrite <- Hfound in Hv. apply list_elem_of_filter in Hv as [Hv _].
      by rewrite Hpk.
  - intros uid. rewrite Hsub. apply elem_of_pk_strings.
Qed.

(** An instance: two stored users asked for in reverse order. *)
Lemma clean_returned_users_witness :
  [ann; bob] = filter (λ u, str (pk u) ∈ submitted "2,1") [ann; bob; cy].
Proof.
  destruct (clean_returned_users required_field [ann; bob; cy] "2,1" [ann; bob])
    as [Hrows _]; [reflexivity|exact Hrows].
Defined.

(** X4. Cleaning is stable under the widget: when [clean] has returned a
    non-empty list for some text, the text that [render] writes for that
    list is cleaned to the same list again. *)
Theorem clean_render_clean `{SetIteration} self tbl s cleaned name attrs :
  clean self tbl (PyStr s) = Return (PyList cleaned) →
  cleaned ≠ [] →
  ∃ text,
    render name (PyList cleaned) attrs = HiddenInput_render name (PyStr text) attrs ∧
    clean self tbl (PyStr text) = Return (PyList cleaned).
Proof.
  intros Hclean Hne. exists (join ", " ((λ user, str (pk user)) <$> cleaned)).
  split; [done|].
  apply clean_Return_inv in Hclean as (Hs & Hfound & Hsub & Hacc).
  apply clean_text_Return; [| |done|].
  - destruct cleaned as [|u us]; [done|]. apply join_nonempty, str_nonempty.
  - by rewrite submitted_join, <- Hsub.
  - rewrite submitted_join by done. unfold symmetric_difference.
    apply set_eq. intros y. rewrite elem_of_union, !elem_of_difference.
    split; [tauto|by intros ?%not_elem_of_empty].
Qed.

(** An instance: a padded text with a repetition. *)
Lemma clean_render_clean_witness :
  ∃ text,
    render "recipient" (PyList [ann; cy]) None
    = HiddenInput_render "recipient" (PyStr text) None ∧
    clean required_field [ann; bob; cy] (PyStr text) = Return (PyList [ann; cy]).
Proof.
  by apply (clean_render_clean required_field [ann; bob; cy] " 3 ,1,3").
Defined.

(** An ID that [int] does not read ends [clean] with its [ValueError]. *)
Lemma clean_not_int_literal `{SetIteration} self tbl s :
  (∃ uid, uid ∈ submitted s ∧ int_literal uid = None) →
  ∃ literal, literal ∈ submitted s ∧ int_literal literal = None ∧
             clean self tbl (PyStr s) = Raise (ValueError literal).
Proof.
  intros Hbad.
  assert (Hs : s ≠ "").
  { intros ->. destruct Hbad as (uid & Hin & _).
    rewrite submitted_empty_text in Hin. by apply not_elem_of_empty in Hin. }
  destruct (for_each_int_fails (elements (submitted s))) as (literal & _ & _ & Hfor).
  { destruct Hbad as (uid & Hin & Hnone). exists uid. by rewrite elem_of_elements. }
  pose proof (clean_text_outcome self tbl s Hs) as Hout.
  unfold User_objects_filter_pk__in in Hout. rewrite Hfor in Hout. exact Hout.
Qed.

(** X5. An ID that is not an integer is not reported as incorrect: the
    lookup coerces the IDs with [int], and when some submitted ID holds a
    character that no integer is written with, [clean] leaves with the
    [ValueError] of one of the submitted IDs, in whatever order the sets are
    iterated. *)
Theorem clean_non_integer_id `{SetIteration} self tbl s :
  (∃ uid, uid ∈ submitted s ∧ all_chars in_int_text uid = false) →
  ∃ literal, literal ∈ submitted s ∧ int_literal literal = None ∧
             clean self tbl (PyStr s) = Raise (ValueError literal).
Proof.
  intros (uid & Hin & Hchars). apply clean_not_int_literal. exists uid.
  split; [done|]. destruct (int_literal uid) as [z|] eqn:Hz; [|done].
  apply int_literal_chars in Hz. congruence.
Qed.

(** An instance, for every order of iteration: one good ID and one with a
    letter in it. *)
Lemma clean_non_integer_id_witness :
  (∀ order : SetIteration,
     clean required_field [ann; bob] (PyStr "1, x2") = Raise (ValueError "x2")) ∧
  all_chars in_int_text "x2" = false.
Proof.
  split; [|reflexivity]. intros order.
  destruct (clean_non_integer_id required_field [ann; bob] "1, x2")
    as (literal & Hin & Hlit & ->).
  - exists "x2". split; [|done]. apply elem_of_submitted. split; [done|].
    change (strip <$> split "," "1, x2") with ["1"; "x2"].
    apply elem_of_cons. right. apply elem_of_cons. by left.
  - apply elem_of_submitted in Hin as [_ Hin].
    change (strip <$> split "," "1, x2") with ["1"; "x2"] in Hin.
    apply elem_of_cons in Hin as [->|Hin]; [discriminate Hlit|].
    apply elem_of_cons in Hin as [->|Hin]; [done|]. by apply elem_of_nil in Hin.
Defined.

End MoreOnClean.

(** ** More about the views *)

Section MoreOnViews.
Import views.

Lemma view_missing site now message_id template_name request w :
  is_authenticated (user request) = true →
  Message_objects w !! message_id = None →
  view site now message_id template_name request w
  = (Raise (if fits message_id then Http404 else OverflowError), w).
Proof.
  intros Hauth Hm. unfold view, login_required. rewrite Hauth.
  unfold view_body, mbind, M_bind, bindM. by rewrite (get_missing _ _ Hm).
Qed.

Lemma reply_missing site message_id fc template_name success_url rf request w :
  is_authenticated (user request) = true →
  Message_objects w !! message_id = None →
  reply site message_id fc template_name success_url rf request w
  = (Raise (if fits message_id then Http404 else OverflowError), w).
Proof.
  intros Hauth Hm. unfold reply, login_required. rewrite Hauth.
  unfold reply_body, mbind, M_bind, bindM. by rewrite (get_missing _ _ Hm).
Qed.

(** Marking changes neither the key nor the roles. *)
Lemma mark_id m u t : id (mark m u t).1 = id m.
Proof. by destruct (mark_fields m u t) as ((-> & _) & _). Qed.

Lemma mark_roles m u t u' :
  sender_is (mark m u t).1 u' = sender_is m u' ∧
  recipient_is (mark m u t).1 u' = recipient_is m u'.
Proof.
  destruct (mark_fields m u t) as ((_ & _ & _ & Hs & Hr & _) & _).
  unfold sender_is, recipient_is. by rewrite Hs, Hr.
Qed.

(** The marked copy, field by field. *)
Lemma mark_unfold m u t :
  (mark m u t).1
  = mkMessage (id m) (subject m) (body m) (sender m) (recipient m) (sent_at m)
              (read_at m) (replied_at m)
              (if sender_is m u then t else sender_deleted_at m)
              (if recipient_is m u then t else recipient_deleted_at m).
Proof.
  unfold mark. destruct (sender_is m u) eqn:Hs; simpl.
  - change (recipient_is (set_sender_deleted_at m t) u) with (recipient_is m u).
    by destruct (recipient_is m u), m.
  - by destruct (recipient_is m u), m.
Qed.

(** Of two markings by the same user the second decides. *)
Lemma mark_mark m u t1 t2 : (mark (mark m u t1).1 u t2).1 = (mark m u t2).1.
Proof.
  rewrite (mark_unfold (mark m u t1).1), (mark_unfold m u t2).
  destruct (mark_roles m u t1 u) as [-> ->].
  rewrite (mark_unfold m u t1). cbn.
  by destruct (sender_is m u), (recipient_is m u).
Qed.

(** Marking with what the markers already hold changes nothing. *)
Lemma mark_same m u t :
  (sender_is m u = true → sender_deleted_at m = t) →
  (recipient_is m u = true → recipient_deleted_at m = t) →
  (mark m u t).1 = m.
Proof.
  intros Hs Hr. rewrite mark_unfold.
  destruct (sender_is m u), (recipient_is m u), m; cbn in *;
    try specialize (Hs eq_refl); try specialize (Hr eq_refl); congruence.
Qed.

(** The table after [delete] and after [undelete]. *)
Lemma delete_table site globals now message_id success_url request w :
  Message_objects (delete site globals now message_id success_url request w).2
  = marked_table (Message_objects w) message_id (user request) (Some now).
Proof.
  unfold marked_table. destruct (is_authenticated (user request)) eqn:Hauth.
  - destruct (Message_objects w !! message_id) as [m|] eqn:Hm.
    + rewrite (delete_stored _ _ _ _ _ _ _ m Hauth Hm). simpl.
      by destruct (sender_is m (user request) || recipient_is m (user request)).
    + by rewrite (delete_missing _ _ _ _ _ _ _ Hauth Hm).
  - unfold delete. rewrite anonymous_redirected by done. simpl.
    by destruct (Message_objects w !! message_id).
Qed.

Lemma undelete_table site globals message_id success_url request w :
  Message_objects (undelete site globals message_id success_url request w).2
  = marked_table (Message_objects w) message_id (user request) None.
Proof.
  unfold marked_table. destruct (is_authenticated (user request)) eqn:Hauth.
  - destruct (Message_objects w !! message_id) as [m|] eqn:Hm.
    + rewrite (undelete_stored _ _ _ _ _ _ m Hauth Hm). simpl.
      by destruct (sender_is m (user request) || recipient_is m (user request)).
    + by rewrite (undelete_missing _ _ _ _ _ _ Hauth Hm).
  - unfold undelete. rewrite anonymous_redirected by done. simpl.
    by destruct (Message_objects w !! message_id).
Qed.

Lemma marked_table_twice tbl message_id u t1 t2 :
  keyed tbl →
  marked_table (marked_table tbl message_id u t1) message_id u t2
  = marked_table tbl message_id u t2.
Proof.
  intros Hkeyed. unfold marked_table at 2 3.
  destruct (tbl !! message_id) as [m|] eqn:Hm; [|unfold marked_table; by rewrite Hm].
  destruct (is_authenticated u && (sender_is m u || recipient_is m u)) eqn:Hrole;
    [|unfold marked_table; by rewrite Hm, Hrole].
  pose proof (Hkeyed _ _ Hm) as Hid.
  unfold marked_table. rewrite !mark_id, Hid, lookup_insert_eq.
  destruct (mark_roles m u t1 u) as [-> ->]. rewrite Hrole.
  by rewrite mark_mark, !mark_id, Hid, insert_insert_eq.
Qed.

(** X6. Of two consecutive deletions or recoveries of the same message by
    the same user only the second shows in the table: a later deletion
    overwrites the time of an earlier one, a recovery wipes a deletion, and
    a deletion after a recovery is as if the recovery had not been. *)
Theorem last_marking_wins `{SetIteration} site globals now1 now2 message_id s1 s2
    request w c1 c2 :
  keyed (Message_objects w) →
  c1 = call_delete message_id s1 ∨ c1 = call_undelete message_id s1 →
  c2 = call_delete message_id s2 ∨ c2 = call_undelete message_id s2 →
  Message_objects
    (run site globals now2 c2 request (run site globals now1 c1 request w).2).2
  = Message_objects (run site globals now2 c2 request w).2.
Proof.
  intros Hkeyed [-> | ->] [-> | ->]; simpl;
    repeat (rewrite delete_table || rewrite undelete_table);
    by apply marked_table_twice.
Qed.

(** An instance: bob deletes the message at 500 and again at 700. *)
Lemma last_marking_wins_witness :
  Message_objects
    (delete example_site without_notification 700 10 None (request_of (Authenticated bob))
       (delete example_site without_notification 500 10 None
          (request_of (Authenticated bob)) example_world).2).2
  = Message_objects
      (delete example_site without_notification 700 10 None
         (request_of (Authenticated bob)) example_world).2.
Proof.
  apply (last_marking_wins example_site without_notification 500 700 10 None None
           (request_of (Authenticated bob)) example_world
           (call_delete 10 None) (call_delete 10 None)).
  - intros j m Hj. unfold example_world in Hj. cbn [Message_objects] in Hj.
    apply lookup_singleton_Some in Hj as [<- <-]. reflexivity.
  - by left.
  - by left.
Defined.

(** X7. Deleting and then recovering brings the table of messages back to
    what it was, provided the markers that belong to the user's role were
    empty before (the message was not already in the user's trash). *)
Theorem delete_undelete_restores site globals now message_id s1 s2 request w :
  keyed (Message_objects w) →
  (∀ m, Message_objects w !! message_id = Some m →
        (sender_is m (user request) = true → sender_deleted_at m = None) ∧
        (recipient_is m (user request) = true → recipient_deleted_at m = None)) →
  Message_objects
    (undelete site globals message_id s2 request
       (delete site globals now message_id s1 request w).2).2
  = Message_objects w.
Proof.
  intros Hkeyed Hclear.
  rewrite undelete_table, delete_table, marked_table_twice by done.
  unfold marked_table.
  destruct (Message_objects w !! message_id) as [m|] eqn:Hm; [|done].
  destruct (is_authenticated _ && _); [|done].
  destruct (Hclear m eq_refl) as [Hs Hr].
  rewrite (mark_same m _ None Hs Hr). rewrite (Hkeyed _ _ Hm). by apply insert_id.
Qed.

(** An instance: bob deletes the message he received and takes it back. *)
Lemma delete_undelete_restores_witness :
  Message_objects
    (undelete example_site with_notification 10 None (request_of (Authenticated bob))
       (delete example_site with_notification 500 10 None
          (request_of (Authenticated bob)) example_world).2).2
  = Message_objects example_world.
Proof.
  apply (delete_undelete_restores example_site with_notification 500 10 None None
           (request_of (Authenticated bob)) example_world).
  - intros j m Hj. unfold example_world in Hj. cbn [Message_objects] in Hj.
    apply lookup_singleton_Some in Hj as [<- <-]. reflexivity.
  - intros m Hm. unfold example_world in Hm. cbn [Message_objects] in Hm.
    apply lookup_singleton_Some in Hm as [_ <-]. by split.
Defined.

(** X8. [undelete] is the mirror of [delete]: for a logged-in user and a
    stored message it empties the marker(s) of the role(s) the user has in
    the message, saves it and redirects, exactly when the user is the sender
    or the recipient; the marker of the other party is left as it is; and a
    user who is neither gets [Http404] with nothing changed. *)
Theorem undelete_clears_or_404 site globals message_id success_url request w m :
  is_authenticated (user request) = true →
  Message_objects w !! message_id = Some m →
  id m = message_id →
  let '(outcome, w') := undelete site globals message_id success_url request w in
  if sender_is m (user request) || recipient_is m (user request) then
    outcome = Return (HttpResponseRedirect (next_url site request success_url)) ∧
    ∃ m', Message_objects w' !! message_id = Some m' ∧
      sender_deleted_at m'
      = (if sender_is m (user request) then None else sender_deleted_at m) ∧
      recipient_deleted_at m'
      = (if recipient_is m (user request) then None else recipient_deleted_at m)
  else outcome = Raise Http404 ∧ w' = w.
Proof.
  intros Hauth Hm Hid.
  rewrite (undelete_stored _ _ _ _ _ _ m Hauth Hm).
  destruct (mark_fields m (user request) None) as (_ & Hs & Hr).
  destruct (sender_is m (user request) || recipient_is m (user request)) eqn:Hrole;
    cbn zeta; [|done].
  split; [done|]. eexists. split; [|by split].
  cbn [Message_objects]. rewrite mark_id, Hid. apply lookup_insert_eq.
Qed.

(** An instance: the message lies in both trashes and bob recovers it; the
    sender's marker stays. *)
Lemma undelete_clears_or_404_witness :
  ∃ m', Message_objects
          (undelete example_site without_notification 10 None
             (request_of (Authenticated bob))
             (mkWorld {[10 := set_sender_deleted_at
                                (set_recipient_deleted_at hello (Some 400)) (Some 300)]}
                      [ann; bob; cy] [] [])).2 !! 10 = Some m' ∧
        sender_deleted_at m' = Some 300 ∧ recipient_deleted_at m' = None.
Proof.
  pose proof (undelete_clears_or_404 example_site without_notification 10 None
                (request_of (Authenticated bob))
                (mkWorld {[10 := set_sender_deleted_at
                                   (set_recipient_deleted_at hello (Some 400)) (Some 300)]}
                         [ann; bob; cy] [] [])
                (set_sender_deleted_at (set_recipient_deleted_at hello (Some 400))
                   (Some 300))
                eq_refl eq_refl eq_refl) as H.
  destruct (undelete _ _ _ _ _ _) as [outcome w']. simpl in H.
  destruct H as (_ & m' & Hm' & Hs & Hr). by exists m'.
Defined.

(** X9. The first reading is the one recorded: a second [view] of the same
    message by the same request, at whatever later time, leaves the world
    exactly as the first left it. *)
Theorem view_twice site now1 now2 message_id t1 t2 request w :
  keyed (Message_objects w) →
  (view site now2 message_id t2 request
     (view site now1 message_id t1 request w).2).2
  = (view site now1 message_id t1 request w).2.
Proof.
  intros Hkeyed. destruct (is_authenticated (user request)) eqn:Hauth.
  2:{ unfold view. by rewrite !anonymous_redirected by done. }
  destruct (Message_objects w !! message_id) as [m|] eqn:Hm.
  2:{ rewrite (view_missing _ _ _ _ _ _ Hauth Hm). simpl.
      by rewrite (view_missing _ _ _ _ _ _ Hauth Hm). }
  rewrite (view_stored _ _ _ t1 _ _ m Hauth Hm).
  destruct (negb (sender_is m (user request)) && negb (recipient_is m (user request)))
    eqn:Hrole.
  { simpl. rewrite (view_stored _ _ _ t2 _ _ m Hauth Hm). by rewrite Hrole. }
  destruct (bool_decide (read_at m = None) && recipient_is m (user request)) eqn:Hread.
  - cbn zeta. cbn [snd].
    erewrite view_stored; [|done|].
    2:{ cbn [Message_objects]. change (id (set_read_at m (Some now1))) with (id m).
        rewrite (Hkeyed _ _ Hm). apply lookup_insert_eq. }
    change (sender_is (set_read_at m (Some now1)) (user request))
      with (sender_is m (user request)).
    change (recipient_is (set_read_at m (Some now1)) (user request))
      with (recipient_is m (user request)).
    by rewrite Hrole.
  - simpl. rewrite (view_stored _ _ _ t2 _ _ m Hauth Hm). by rewrite Hrole, Hread.
Qed.

(** An instance: bob opens the message at 500 and again at 900. *)
Lemma view_twice_witness :
  (view example_site 900 10 "v" (request_of (Authenticated bob))
     (view example_site 500 10 "v" (request_of (Authenticated bob)) example_world).2).2
  = (view example_site 500 10 "v" (request_of (Authenticated bob)) example_world).2.
Proof.
  apply (view_twice example_site 500 900 10 "v" "v" (request_of (Authenticated bob))
           example_world).
  intros j m Hj. unfold example_world in Hj. cbn [Message_objects] in Hj.
  apply lookup_singleton_Some in Hj as [<- <-]. reflexivity.
Defined.

(** What a view that takes no form can do to the table: nothing, or replace
    one row by a copy that differs at most in the two markers and in a
    [read_at] that was empty. *)
Lemma formless_table_shape `{SetIteration} site globals now c request w :
  name_of c ≠ Compose → name_of c ≠ Reply →
  keyed (Message_objects w) →
  Message_objects (run site globals now c request w).2 = Message_objects w ∨
  ∃ i m m',
    Message_objects w !! i = Some m ∧
    Message_objects (run site globals now c request w).2
    = <[i := m']> (Message_objects w) ∧
    id m' = i ∧ subject m' = subject m ∧ body m' = body m ∧
    sender m' = sender m ∧ recipient m' = recipient m ∧
    sent_at m' = sent_at m ∧ replied_at m' = replied_at m ∧
    (read_at m' = read_at m ∨ read_at m = None).
Proof.
  intros Hcompose Hreply Hkeyed.
  assert (Hmarked : ∀ i t,
    marked_table (Message_objects w) i (user request) t = Message_objects w ∨
    ∃ j m m',
      Message_objects w !! j = Some m ∧
      marked_table (Message_objects w) i (user request) t
      = <[j := m']> (Message_objects w) ∧
      id m' = j ∧ subject m' = subject m ∧ body m' = body m ∧
      sender m' = sender m ∧ recipient m' = recipient m ∧
      sent_at m' = sent_at m ∧ replied_at m' = replied_at m ∧
      (read_at m' = read_at m ∨ read_at m = None)).
  { intros i t. unfold marked_table.
    destruct (Message_objects w !! i) as [m|] eqn:Hm; [|by left].
    destruct (is_authenticated _ && _); [|by left].
    right. exists i, m, (mark m (user request) t).1.
    destruct (mark_fields m (user request) t)
      as ((Hid & Hsu & Hb & Hs & Hr & Hsa & Hra & Hrpa) & _).
    rewrite Hid, (Hkeyed _ _ Hm). repeat split; try done. by left. }
  destruct c as [t|t|t|r fc t s rf|i fc t s rf|i s|i s|i t]; try done.
  - left. by rewrite listing_views_unchanged by auto.
  - left. by rewrite listing_views_unchanged by auto.
  - left. by rewrite listing_views_unchanged by auto.
  - simpl. rewrite delete_table. apply Hmarked.
  - simpl. rewrite undelete_table. apply Hmarked.
  - simpl. destruct (is_authenticated (user request)) eqn:Hauth.
    2:{ left. unfold view. by rewrite anonymous_redirected by done. }
    destruct (Message_objects w !! i) as [m|] eqn:Hm.
    2:{ left. by rewrite (view_missing _ _ _ _ _ _ Hauth Hm). }
    rewrite (view_stored _ _ _ _ _ _ m Hauth Hm).
    destruct (negb _ && negb _); [by left|].
    destruct (bool_decide (read_at m = None) && recipient_is m (user request)) eqn:Hread;
      [|by left].
    right. exists i, m, (set_read_at m (Some now)).
    apply andb_true_iff in Hread as [Hnone%bool_decide_eq_true _].
    cbn zeta. cbn [snd Message_objects].
    change (id (set_read_at m (Some now))) with (id m). rewrite (Hkeyed _ _ Hm).
    repeat split; try done. by right.
Qed.

(** X10. A reading time, once recorded, is never changed or removed by the
    views that take no form ([inbox], [outbox], [trash], [delete],
    [undelete], [view]): whoever calls them, and whenever. *)
Theorem read_at_is_kept `{SetIteration} site globals now c request w k m t :
  name_of c ≠ Compose → name_of c ≠ Reply →
  keyed (Message_objects w) →
  Message_objects w !! k = Some m → read_at m = Some t →
  ∃ m', Message_objects (run site globals now c request w).2 !! k = Some m' ∧
        read_at m' = Some t.
Proof.
  intros Hcompose Hreply Hkeyed Hm Hread.
  destruct (formless_table_shape site globals now c request w Hcompose Hreply Hkeyed)
    as [->|(i & m0 & m' & Hm0 & -> & _ & _ & _ & _ & _ & _ & _ & Hra)]; [by exists m|].
  destruct (decide (i = k)) as [->|Hne].
  - exists m'. rewrite lookup_insert_eq. split; [done|].
    assert (m0 = m) as -> by congruence. destruct Hra as [->|Hra]; congruence.
  - exists m. by rewrite lookup_insert_ne.
Qed.

(** An instance: the message was read at 450; ann then deletes it. *)
Lemma read_at_is_kept_witness :
  ∃ m', Message_objects
          (run example_site without_notification 500 (call_delete 10 None)
             (request_of (Authenticated ann))
             (mkWorld {[10 := set_read_at hello (Some 450)]} [ann; bob; cy] [] [])).2
        !! 10 = Some m' ∧ read_at m' = Some 450.
Proof.
  apply (read_at_is_kept example_site without_notification 500 (call_delete 10 None)
           (request_of (Authenticated ann))
           (mkWorld {[10 := set_read_at hello (Some 450)]} [ann; bob; cy] [] [])
           10 (set_read_at hello (Some 450)) 450).
  - done.
  - done.
  - intros j m Hj. cbn [Message_objects] in Hj.
    apply lookup_singleton_Some in Hj as [<- <-]. reflexivity.
  - reflexivity.
  - reflexivity.
Defined.

(** X11. The same views create no row, remove none, and leave the key, the
    subject, the body, the sender, the recipient and the sending and reply
    times of every row alone. *)
Theorem formless_views_keep_rows `{SetIteration} site globals now c request w :
  name_of c ≠ Compose → name_of c ≠ Reply →
  keyed (Message_objects w) →
  let tbl' := Message_objects (run site globals now c request w).2 in
  keyed tbl' ∧ dom tbl' = dom (Message_objects w) ∧
  ∀ k m, Message_objects w !! k = Some m →
    ∃ m', tbl' !! k = Some m' ∧ subject m' = subject m ∧ body m' = body m ∧
          sender m' = sender m ∧ recipient m' = recipient m ∧
          sent_at m' = sent_at m ∧ replied_at m' = replied_at m.
Proof.
  intros Hcompose Hreply Hkeyed tbl'. unfold tbl'.
  destruct (formless_table_shape site globals now c request w Hcompose Hreply Hkeyed)
    as [->|(i & m0 & m' & Hm0 & -> & Hid & Hsu & Hb & Hs & Hr & Hsa & Hrpa & _)].
  { split; [done|]. split; [done|]. intros k m Hm. by exists m. }
  split; [|split].
  - intros k m Hk. destruct (decide (i = k)) as [->|Hne].
    + rewrite lookup_insert_eq in Hk. congruence.
    + rewrite lookup_insert_ne in Hk by done. by apply Hkeyed.
  - apply dom_insert_lookup_L. by exists m0.
  - intros k m Hm. destruct (decide (i = k)) as [->|Hne].
    + exists m'. rewrite lookup_insert_eq. assert (m0 = m) as -> by congruence. done.
    + exists m. by rewrite lookup_insert_ne.
Qed.

(** An instance: bob opens the one stored message. *)
Lemma formless_views_keep_rows_witness :
  dom (Message_objects
         (run example_site without_notification 500 (call_view 10 "v")
            (request_of (Authenticated bob)) example_world).2)
  = dom (Message_objects example_world).
Proof.
  destruct (formless_views_keep_rows example_site without_notification 500
              (call_view 10 "v") (request_of (Authenticated bob)) example_world)
    as (_ & H & _).
  - done.
  - done.
  - intros j m Hj. unfold example_world in Hj. cbn [Message_objects] in Hj.
    apply lookup_singleton_Some in Hj as [<- <-]. reflexivity.
  - exact H.
Defined.

(** X12. Every one of the eight views is behind the login: a request that
    is not logged in is answered with the redirect to the login page, and
    the world stays as it is: nothing is shown, saved, noted or sent. *)
Theorem anonymous_is_sent_to_login `{SetIteration} site globals now c request w :
  is_authenticated (user request) = false →
  run site globals now c request w
  = (Return (HttpResponseRedirect (login_redirect site request)), w).
Proof.
  intros Hanon. destruct c; simpl;
    unfold inbox, outbox, trash, compose, reply, delete, undelete, view;
    by apply anonymous_redirected.
Qed.

(** An instance: an anonymous POST to [compose] with a form that would save. *)
Lemma anonymous_is_sent_to_login_witness :
  run example_site with_notification 500
    (call_compose None accepting_form "c" None None)
    (post_of AnonymousUser) example_world
  = (Return (HttpResponseRedirect "/accounts/login/"), example_world).
Proof.
  by apply (anonymous_is_sent_to_login example_site with_notification 500
              (call_compose None accepting_form "c" None None)
              (post_of AnonymousUser) example_world).
Defined.

(** X13. The four views that address a message ([reply], [delete],
    [undelete], [view]) answer a logged-in request for a key that is not in
    the table with [Http404] when the key fits the key column, and let the
    [OverflowError] of the driver through when it does not; either way they
    change nothing. *)
Theorem missing_message_is_404 `{SetIteration} site globals now c request w message_id :
  message_id_of c = Some message_id →
  is_authenticated (user request) = true →
  Message_objects w !! message_id = None →
  run site globals now c request w
  = (Raise (if fits message_id then Http404 else OverflowError), w).
Proof.
  intros Hid Hauth Hm.
  destruct c; simpl in Hid; try discriminate Hid; injection Hid as ->; simpl.
  - by apply reply_missing.
  - by apply delete_missing.
  - by apply undelete_missing.
  - by apply view_missing.
Qed.

(** Instances: a reply to a message that does not exist, and the deletion
    of one whose key is too large for the column. *)
Lemma missing_message_is_404_witness :
  run example_site with_notification 500
    (call_reply 11 accepting_form "c" None None)
    (post_of (Authenticated ann)) example_world
  = (Raise Http404, example_world) ∧
  run example_site with_notification 500 (call_delete (2 ^ 63) None)
    (request_of (Authenticated ann)) example_world
  = (Raise OverflowError, example_world).
Proof.
  split.
  - by apply (missing_message_is_404 example_site with_notification 500
                (call_reply 11 accepting_form "c" None None)
                (post_of (Authenticated ann)) example_world 11).
  - by apply (missing_message_is_404 example_site with_notification 500
                (call_delete (2 ^ 63) None)
                (request_of (Authenticated ann)) example_world (2 ^ 63)).
Defined.

(** X14. A deletion or recovery that goes through leaves exactly one
    one-time notice for the user, and sends exactly one notification, to
    the requesting user and about the message as it was saved, when the
    [notification] application is installed, and none when it is not. *)
Theorem marking_notices site globals now message_id success_url request w m :
  is_authenticated (user request) = true →
  Message_objects w !! message_id = Some m →
  id m = message_id →
  sender_is m (user request) || recipient_is m (user request) = true →
  let wd := (delete site globals now message_id success_url request w).2 in
  let wu := (undelete site globals message_id success_url request w).2 in
  (∃ saved, Message_objects wd !! message_id = Some saved ∧
     flash wd = (flash w ++ ["Message successfully deleted."])%list ∧
     notices wd = if notification globals
                  then (notices w ++ [(user request, "messages_deleted", saved)])%list
                  else notices w) ∧
  (∃ saved, Message_objects wu !! message_id = Some saved ∧
     flash wu = (flash w ++ ["Message successfully recovered."])%list ∧
     notices wu = if notification globals
                  then (notices w ++ [(user request, "messages_recovered", saved)])%list
                  else notices w).
Proof.
  intros Hauth Hm Hid Hrole wd wu. unfold wd, wu.
  rewrite (delete_stored _ _ _ _ _ _ _ m Hauth Hm),
          (undelete_stored _ _ _ _ _ _ m Hauth Hm), Hrole.
  cbn zeta. cbn [snd Message_objects flash notices].
  rewrite !mark_id, Hid, !lookup_insert_eq.
  split; eexists; (split; [reflexivity|]); by split.
Qed.

(** An instance: ann deletes her message with notifications installed. *)
Lemma marking_notices_witness :
  ∃ saved,
    notices (delete example_site with_notification 500 10 None
               (request_of (Authenticated ann)) example_world).2
    = [(Authenticated ann, "messages_deleted", saved)] ∧
    sender_deleted_at saved = Some 500.
Proof.
  destruct (marking_notices example_site with_notification 500 10 None
              (request_of (Authenticated ann)) example_world hello
              eq_refl eq_refl eq_refl eq_refl)
    as [(saved & Hsaved & _ & Hnotices) _].
  exists saved. split; [exact Hnotices|].
  vm_compute in Hsaved. by injection Hsaved as <-.
Defined.

(** X15. What [view] shows is what is stored afterwards: for a logged-in
    sender or recipient the message handed to the template is the row of
    the table after the call, reading time included. *)
Theorem view_shows_stored_row site now message_id template_name request w m :
  is_authenticated (user request) = true →
  Message_objects w !! message_id = Some m →
  id m = message_id →
  sender_is m (user request) || recipient_is m (user request) = true →
  ∃ shown,
    (view site now message_id template_name request w).1
    = Return (render_to_response template_name (ctx_message shown) request) ∧
    Message_objects (view site now message_id template_name request w).2 !! message_id
    = Some shown.
Proof.
  intros Hauth Hm Hid Hrole.
  rewrite (view_stored _ _ _ _ _ _ m Hauth Hm).
  assert (negb (sender_is m (user request)) && negb (recipient_is m (user request))
          = false) as ->.
  { by destruct (sender_is m (user request)), (recipient_is m (user request)). }
  destruct (bool_decide (read_at m = None) && recipient_is m (user request)).
  - exists (set_read_at m (Some now)). split; [done|].
    cbn [snd Message_objects]. change (id (set_read_at m (Some now))) with (id m).
    rewrite Hid. apply lookup_insert_eq.
  - by exists m.
Qed.

(** An instance: bob opens his unread message. *)
Lemma view_shows_stored_row_witness :
  ∃ shown,
    (view example_site 500 10 "v" (request_of (Authenticated bob)) example_world).1
    = Return (render_to_response "v" (ctx_message shown) (request_of (Authenticated bob))) ∧
    Message_objects
      (view example_site 500 10 "v" (request_of (Authenticated bob)) example_world).2
    !! 10 = Some shown.
Proof.
  by apply (view_shows_stored_row example_site 500 10 "v"
              (request_of (Authenticated bob)) example_world hello).
Defined.

(** X16. A [next] in the query string decides where [compose], [delete]
    and [undelete] redirect after success, whatever [success_url] says;
    [reply] does not look at it and redirects to [success_url], or to the
    inbox when there is none. Success is, for [compose] and [reply], a POST
    whose form is valid, and for [delete] and [undelete], whatever the
    method, a stored message of which the user is the sender or the
    recipient. *)
Theorem next_overrides_except_in_reply `{SetIteration} site globals now message_id
    recipient fc template_name success_url rf request w m next :
  is_authenticated (user request) = true →
  GET request !! "next" = Some next →
  (method request = "POST" →
   is_valid fc (mkForm (Some (POST request)) [] rf None None) w = Return true →
   (compose site recipient fc template_name success_url rf request w).1
   = Return (HttpResponseRedirect next)) ∧
  (Message_objects w !! message_id = Some m →
   sender_is m (user request) || recipient_is m (user request) = true →
   (delete site globals now message_id success_url request w).1
   = Return (HttpResponseRedirect next) ∧
   (undelete site globals message_id success_url request w).1
   = Return (HttpResponseRedirect next)) ∧
  (method request = "POST" →
   is_valid fc (mkForm (Some (POST request)) [] rf None None) w = Return true →
   Message_objects w !! message_id = Some m →
   sender_is m (user request) || recipient_is m (user request) = true →
   (reply site message_id fc template_name success_url rf request w).1
   = Return (HttpResponseRedirect (default (reverse site "messages_inbox") success_url))).
Proof.
  intros Hauth Hnext.
  assert (Hurl : next_url site request success_url = next).
  { unfold next_url. by rewrite Hnext. }
  split; [|split].
  - intros Hpost Hvalid.
    unfold compose, login_required. rewrite Hauth. unfold compose_body.
    rewrite Hpost. cbn [String.eqb Ascii.eqb Bool.eqb].
    unfold mbind, M_bind, bindM, lift. rewrite Hvalid. cbn. by rewrite Hurl.
  - intros Hm Hrole. split.
    + rewrite (delete_stored _ _ _ _ _ _ _ m Hauth Hm), Hrole. cbn. by rewrite Hurl.
    + rewrite (undelete_stored _ _ _ _ _ _ m Hauth Hm), Hrole. cbn. by rewrite Hurl.
  - intros Hpost Hvalid Hm Hrole.
    unfold reply, login_required. rewrite Hauth.
    unfold reply_body, mbind, M_bind, bindM, get_object_or_404. rewrite Hm.
    assert (negb (sender_is m (user request)) && negb (recipient_is m (user request))
            = false) as ->.
    { by destruct (sender_is m (user request)), (recipient_is m (user request)). }
    rewrite Hpost. cbn [String.eqb Ascii.eqb Bool.eqb].
    unfold lift. rewrite Hvalid. by cbn.
Qed.

(** Instances: bob posts with [?next=/back/] and a success URL of his own,
    to [compose] and to [reply]; and he follows a link to [delete] and to
    [undelete] with the same query string. *)
Lemma next_overrides_except_in_reply_witness :
  (compose example_site None accepting_form "c" (Some "/done/") None
     (mkRequest (Authenticated bob) "POST" {["next" := "/back/"]} ∅) example_world).1
  = Return (HttpResponseRedirect "/back/") ∧
  (reply example_site 10 accepting_form "c" (Some "/done/") None
     (mkRequest (Authenticated bob) "POST" {["next" := "/back/"]} ∅) example_world).1
  = Return (HttpResponseRedirect "/done/") ∧
  (delete example_site without_notification 500 10 (Some "/done/")
     (mkRequest (Authenticated bob) "GET" {["next" := "/back/"]} ∅) example_world).1
  = Return (HttpResponseRedirect "/back/") ∧
  (undelete example_site without_notification 10 (Some "/done/")
     (mkRequest (Authenticated bob) "GET" {["next" := "/back/"]} ∅) example_world).1
  = Return (HttpResponseRedirect "/back/").
Proof.
  destruct (next_overrides_except_in_reply example_site without_notification 500 10 None
              accepting_form "c" (Some "/done/") None
              (mkRequest (Authenticated bob) "POST" {["next" := "/back/"]} ∅)
              example_world hello "/back/")
    as (Hcompose & _ & Hreply); [reflexivity|apply lookup_singleton_eq|].
  destruct (next_overrides_except_in_reply example_site without_notification 500 10 None
              accepting_form "c" (Some "/done/") None
              (mkRequest (Authenticated bob) "GET" {["next" := "/back/"]} ∅)
              example_world hello "/back/")
    as (_ & Hmark & _); [reflexivity|apply lookup_singleton_eq|].
  destruct Hmark as [Hdelete Hundelete]; [apply lookup_singleton_eq|reflexivity|].
  split; [by apply Hcompose|]. split; [|by split].
  apply Hreply; [reflexivity|reflexivity|apply lookup_singleton_eq|reflexivity].
Defined.

Lemma is_int_char_not_plus c : is_int_char c = true → Ascii.eqb c "+" = false.
Proof.
  intros H. destruct (Ascii.eqb_spec c "+") as [->|]; [|done].
  by vm_compute in H.
Qed.

Lemma str_no_plus z : all_chars (λ c, negb (Ascii.eqb c "+")) (str z) = true.
Proof.
  eapply all_chars_impl; [|apply str_chars].
  intros c Hc. by rewrite (is_int_char_not_plus c Hc).
Qed.

(** Splitting at a character what was joined with it gives the pieces back,
    when none of them holds the character. *)
Lemma split_join_char sep x l :
  Forall (λ y, all_chars (λ c, negb (Ascii.eqb c sep)) y = true) (x :: l) →
  split sep (join (String sep "") (x :: l)) = x :: l.
Proof.
  revert x. induction l as [|y l IH]; intros x Hall.
  - simpl. apply split_no_sep. by inversion Hall.
  - inversion Hall as [|? ? Hx Hyl]; subst.
    change (join (String sep "") (x :: y :: l))
      with (x ++ String sep (join (String sep "") (y :: l))).
    rewrite (split_app_no_sep _ _ _ Hx).
    assert (split sep (String sep (join (String sep "") (y :: l)))
            = "" :: split sep (join (String sep "") (y :: l))) as ->.
    { simpl. by rewrite Ascii.eqb_refl. }
    by rewrite String_app_empty, (IH y Hyl).
Qed.

Lemma for_each_int_str keys : for_each int (str <$> keys) = Return keys.
Proof.
  induction keys as [|k keys IH]; [done|].
  rewrite fmap_cons, for_each_cons, int_str. cbn [bind]. by rewrite IH.
Qed.

(** The lookup that [compose] makes for the keys of a URL. *)
Lemma compose_lookup tbl keys :
  keys ≠ [] →
  (∀ k, k ∈ keys → fits k = true) →
  User_objects_filter_pk__in tbl (strip <$> split "+" (join "+" (str <$> keys)))
  = Return (filter (λ u, pk u ∈ keys) tbl).
Proof.
  intros Hne Hfits. destruct keys as [|k ks]; [done|].
  rewrite fmap_cons, split_join_char.
  2:{ apply Forall_forall. intros y Hy.
      change (y ∈ str <$> (k :: ks)) in Hy.
      apply list_elem_of_fmap in Hy as (z & -> & _). apply str_no_plus. }
  change (str k :: (str <$> ks)) with (str <$> (k :: ks)).
  assert (strip <$> (str <$> (k :: ks)) = str <$> (k :: ks)) as ->.
  { generalize (k :: ks). intros l. induction l as [|z l IH]; [done|].
    rewrite !fmap_cons, strip_str. by f_equal. }
  unfold User_objects_filter_pk__in. rewrite for_each_int_str.
  cbn [mbind result_bind bind].
  assert (forallb (λ key, fits key || bool_decide (key ∈ pk <$> tbl)) (k :: ks) = true)
    as ->; [|done].
  apply Is_true_true, forallb_True, Forall_forall. intros key Hkey.
  by rewrite (Hfits key Hkey).
Qed.

(** X17. [compose] on a request that is not a POST, with the keys of the
    URL, all in the range of the key column, joined by [+]: the form comes
    back addressed to the stored users with those keys, in table order,
    with their signatures joined by [<br>]; when no stored user has one of
    the keys, or no recipient is given at all, the answer is [Http404]; the
    world is not changed. *)
Theorem compose_get_recipients `{SetIteration} site fc template_name success_url rf
    request w keys :
  is_authenticated (user request) = true →
  String.eqb (method request) "POST" = false →
  keys ≠ [] →
  (∀ k, k ∈ keys → fits k = true) →
  let recipients := filter (λ u, pk u ∈ keys) (User_objects w) in
  compose site (Some (join "+" (str <$> keys))) fc template_name success_url rf request w
  = (if bool_decide (recipients = []) then Raise Http404
     else Return (render_to_response template_name
                    (ctx_form (mkForm None [] None (Some recipients)
                                      (Some (signatures recipients))))
                    request),
     w) ∧
  compose site None fc template_name success_url rf request w = (Raise Http404, w).
Proof.
  intros Hauth Hget Hne Hfits recipients. split.
  - unfold compose, login_required. rewrite Hauth. unfold compose_body. rewrite Hget.
    unfold mbind, M_bind, bindM, lift. rewrite (compose_lookup _ _ Hne Hfits).
    fold recipients. cbn. by case_bool_decide.
  - unfold compose, login_required. rewrite Hauth. unfold compose_body. by rewrite Hget.
Qed.

(** An instance: the URL names bob, a stranger and ann. *)
Lemma compose_get_recipients_witness :
  compose example_site (Some "2+9+1") accepting_form "c" None None
    (request_of (Authenticated cy)) example_world
  = (Return (render_to_response "c"
               (ctx_form (mkForm None [] None (Some [ann; bob]) (Some "-- Ann<br>-- Bob")))
               (request_of (Authenticated cy))),
     example_world).
Proof.
  destruct (compose_get_recipients example_site accepting_form "c" None None
              (request_of (Authenticated cy)) example_world [2; 9; 1])
    as [Hshown _].
  - reflexivity.
  - reflexivity.
  - done.
  - intros k Hk. repeat (apply elem_of_cons in Hk as [->|Hk]; [reflexivity|]).
    by apply elem_of_nil in Hk.
  - exact Hshown.
Defined.



Lemma bind_lift {A B} (f : World → result A) (k : A → M B) w :
  (lift f ≫= k) w
  = match f w with
    | Return a => k a w
    | Raise e => (Raise e, w)
    end.
Proof. unfold mbind, M_bind, bindM, lift. by destruct (f w). Qed.

(** X19. When the posted form is not valid, [compose] cleans the posted
    recipients once more to show their signatures, and of what can go
    wrong there it catches the [ValidationError] only: a POST without the
    key [recipient] ends in a [KeyError], any other exception of [clean]
    leaves the view too, and a [ValidationError] gives the form back with
    no signature. The world is not changed in any of these cases. *)
Theorem compose_invalid_post `{SetIteration} site recipient fc template_name success_url
    rf request w :
  is_authenticated (user request) = true →
  method request = "POST" →
  is_valid fc (mkForm (Some (POST request)) [] rf None None) w = Return false →
  let shown recipients :=
    (Return (render_to_response template_name
               (ctx_form (mkForm (Some (POST request)) [] rf None
                                 (Some (signatures recipients))))
               request), w) in
  let outcome := compose site recipient fc template_name success_url rf request w in
  match POST request !! "recipient" with
  | None => outcome = (Raise (KeyError "recipient"), w)
  | Some value =>
      match fields.clean (fields.mkField (recipient_required fc) rf) (User_objects w)
              (PyStr value) with
      | Return cleaned => outcome = shown (recipients_or_empty cleaned)
      | Raise (ValidationError _) => outcome = shown []
      | Raise e => outcome = (Raise e, w)
      end
  end.
Proof.
  intros Hauth Hpost Hvalid shown outcome.
  assert (Hrun : outcome =
    match POST request !! "recipient" with
    | None => (Raise (KeyError "recipient"), w)
    | Some value =>
        match fields.clean (fields.mkField (recipient_required fc) rf) (User_objects w)
                (PyStr value) with
        | Return cleaned => shown (recipients_or_empty cleaned)
        | Raise (ValidationError _) => shown []
        | Raise e => (Raise e, w)
        end
    end).
  { unfold outcome, shown, compose, login_required. rewrite Hauth. unfold compose_body.
    rewrite Hpost. cbn [String.eqb Ascii.eqb Bool.eqb].
    rewrite bind_lift, Hvalid.
    unfold mbind, M_bind, bindM, except_ValidationError, lift, getitem.
    destruct (POST request !! "recipient") as [value|]; [|done].
    cbn [mbind result_bind bind]. cbv beta.
    destruct (fields.clean _ _ _) as [cleaned|[]]; reflexivity. }
  rewrite Hrun. destruct (POST request !! "recipient") as [value|]; [|done].
  destruct (fields.clean _ _ _) as [cleaned|[]]; reflexivity.
Qed.

(** An instance: a POST that carries no recipient at all. *)
Lemma compose_invalid_post_witness :
  compose example_site None rejecting_form "c" None None
    (post_of (Authenticated ann)) example_world
  = (Raise (KeyError "recipient"), example_world).
Proof.
  by apply (compose_invalid_post example_site None rejecting_form "c" None None
              (post_of (Authenticated ann)) example_world).
Defined.

(** X20. [reply] by the sender or the recipient of a stored message: on a
    request that is not a POST the form comes back with the subject
    prefixed by ["Re: "] and addressed to the sender of the message (also
    when it is the sender who replies), and on a POST that is not valid the
    posted form comes back; either way with the signature of that sender,
    and with nothing saved, noted or sent. *)
Theorem reply_shows_form site message_id fc template_name success_url rf request w parent :
  is_authenticated (user request) = true →
  Message_objects w !! message_id = Some parent →
  sender_is parent (user request) || recipient_is parent (user request) = true →
  let outcome := reply site message_id fc template_name success_url rf request w in
  let shown form :=
    (Return (render_to_response template_name (ctx_form form) request), w) in
  (String.eqb (method request) "POST" = false →
   outcome = shown (mkForm None
                      [("subject", PyStr ("Re: " ++ subject parent));
                       ("recipient", PyList [sender parent])]
                      None None (Some (signature (sender parent))))) ∧
  (method request = "POST" →
   is_valid fc (mkForm (Some (POST request)) [] rf None None) w = Return false →
   outcome = shown (mkForm (Some (POST request)) [] rf None
                      (Some (signature (sender parent))))).
Proof.
  intros Hauth Hm Hrole outcome shown.
  assert (Hcheck : negb (sender_is parent (user request))
                   && negb (recipient_is parent (user request)) = false).
  { by destruct (sender_is parent (user request)), (recipient_is parent (user request)). }
  split.
  - intros Hget. unfold outcome, shown, reply, login_required. rewrite Hauth.
    unfold reply_body, mbind, M_bind, bindM, get_object_or_404.
    by rewrite Hm, Hcheck, Hget.
  - intros Hpost Hvalid. unfold outcome, shown, reply, login_required. rewrite Hauth.
    unfold reply_body, mbind, M_bind, bindM, get_object_or_404.
    rewrite Hm, Hcheck, Hpost. cbn [String.eqb Ascii.eqb Bool.eqb].
    unfold lift. by rewrite Hvalid.
Qed.

(** An instance: ann looks at the reply form for her own message. *)
Lemma reply_shows_form_witness :
  reply example_site 10 accepting_form "c" None None
    (request_of (Authenticated ann)) example_world
  = (Return (render_to_response "c"
               (ctx_form (mkForm None [("subject", PyStr "Re: hi");
                                       ("recipient", PyList [ann])]
                                 None None (Some "-- Ann")))
               (request_of (Authenticated ann))),
     example_world).
Proof.
  destruct (reply_shows_form example_site 10 accepting_form "c" None None
              (request_of (Authenticated ann)) example_world hello
              eq_refl eq_refl eq_refl) as [H _].
  by apply H.
Defined.

End MoreOnViews.

(** ** More about the widget and the filter *)

Section MoreOnFields.
Import fields.

(** The text written for a list of keys tells the keys, in order. *)
Lemma join_str_inj (ks1 ks2 : list Z) :
  join ", " (str <$> ks1) = join ", " (str <$> ks2) → ks1 = ks2.
Proof.
  intros Heq.
  assert (Hno : ∀ ks : list Z,
    Forall (λ y, all_chars (λ c, negb (Ascii.eqb c ",")) y = true) (str <$> ks)).
  { intros ks. apply Forall_forall. intros y (z & -> & _)%list_elem_of_fmap.
    apply str_no_comma. }
  destruct ks1 as [|k1 ks1], ks2 as [|k2 ks2]; [done| | |].
  - destruct (join_nonempty ", " (str k2) (str <$> ks2) (str_nonempty k2)).
    by rewrite fmap_cons in Heq.
  - destruct (join_nonempty ", " (str k1) (str <$> ks1) (str_nonempty k1)).
    by rewrite fmap_cons in Heq.
  - apply (f_equal (split ",")) in Heq.
    pose proof (Hno (k1 :: ks1)) as H1. pose proof (Hno (k2 :: ks2)) as H2.
    rewrite !fmap_cons in Heq. rewrite fmap_cons in H1, H2.
    rewrite (split_join_comma _ _ H1), (split_join_comma _ _ H2) in Heq.
    injection Heq as Hk Hks. apply str_inj in Hk as ->. f_equal.
    clear H1 H2. revert ks2 Hks. induction ks1 as [|a ks1 IH]; intros [|b ks2] Hks;
      try done.
    rewrite !fmap_cons in Hks. injection Hks as Hab Hks.
    apply str_inj in Hab as ->. f_equal. by apply IH.
Qed.

(** X21. The widget loses nothing: two lists of users that it renders alike
    have the same keys in the same order. *)
Theorem render_tells_the_keys name attrs users1 users2 :
  render name (PyList users1) attrs = render name (PyList users2) attrs →
  pk <$> users1 = pk <$> users2.
Proof.
  unfold render. intros [= Heq]. apply join_str_inj.
  by rewrite <- !list_fmap_compose.
Qed.

(** An instance: two lists of users with the same keys and other names. *)
Lemma render_tells_the_keys_witness :
  pk <$> [ann; bob] = pk <$> [mkUser 1 "anna" ""; mkUser 2 "robert" ""].
Proof.
  by apply (render_tells_the_keys "recipient" None [ann; bob]
              [mkUser 1 "anna" ""; mkUser 2 "robert" ""]).
Defined.

(** X22. A filter that returns [False] for no stored user cannot be told
    from no filter at all: [clean] answers every value alike with it and
    without it. *)
Theorem accepting_filter_is_invisible `{SetIteration} required recipient_filter tbl
    value :
  (∀ u, u ∈ tbl → is_False (recipient_filter u) = false) →
  clean (mkField required (Some recipient_filter)) tbl value
  = clean (mkField required None) tbl value.
Proof.
  intros Hacc. unfold clean.
  change (Field_clean (mkField required (Some recipient_filter)) value)
    with (Field_clean (mkField required None) value).
  destruct (Field_clean (mkField required None) value) as [v|e]; [|done].
  cbn [mbind result_bind bind].
  destruct (negb (truthy value)); [done|].
  destruct (is_list_or_tuple value); [done|].
  destruct (value_split value) as [parts|e]; [|done].
  cbn [mbind result_bind bind].
  destruct (User_objects_filter_pk__in tbl _) as [found|e] eqn:Hfound; [|done].
  cbn [mbind result_bind bind _recipient_filter].
  rewrite filter_loop_accepts; [done|].
  intros u Hu. apply Hacc.
  unfold User_objects_filter_pk__in in Hfound.
  destruct (for_each int _) as [keys|]; [|discriminate].
  cbn [mbind result_bind bind] in Hfound. destruct (forallb _ keys); [|discriminate].
  injection Hfound as <-. by apply list_elem_of_filter in Hu as [_ Hu].
Qed.

(** An instance: a filter that only dislikes bob, on a table without him. *)
Lemma accepting_filter_is_invisible_witness :
  clean (mkField true (Some not_bob)) [ann; cy] (PyStr "3, 2")
  = clean (mkField true None) [ann; cy] (PyStr "3, 2").
Proof.
  apply (accepting_filter_is_invisible true not_bob [ann; cy] (PyStr "3, 2")).
  intros u Hu. apply elem_of_cons in Hu as [->|Hu]; [done|].
  apply elem_of_cons in Hu as [->|Hu]; [done|]. by apply elem_of_nil in Hu.
Defined.

End MoreOnFields.
